(** * move2kube: the executable (external) transformer and the container engine

    A shallow embedding of

    - [Executable.Init], [Executable.DirectoryDetect], [Executable.Transform]
      and [Executable.executeDetect] (package [external]), and
    - [initContainerEngine], [GetContainerEngine] and [IsDisabled]
      (package [container]),

    together with the part of Go's [encoding/json] that these functions rely
    on, and the properties the specification states about them.

    Go values are modelled as the code has them: a slice or a map that may be
    [nil] is an [option], a struct is a record, an [interface{}] holding
    decoded JSON is a tree of maps and slices.  Everything the process does
    not own (the execution environment, the file system, the container
    runtime, the operator) lives in an abstract [World] that every external
    call threads through; log output is kept as a trace. *)

From stdpp Require Import base strings list gmap option.
From Stdlib Require Import ZArith Lia.

Local Set Warnings "-register-all".
Local Open Scope string_scope.
Local Open Scope list_scope.

(** ** Go data *)

(** A slice: [None] is the nil slice, [Some []] an empty one that is not nil. *)
Abbreviation slice A := (option (list A)) (only parsing).
(** A map with string-kinded keys: [None] is the nil map. *)
Abbreviation gomap V := (option (gmap string V)) (only parsing).

Definition elems {A} (s : slice A) : list A := default [] s.

(** [len(m)] of a map. *)
Definition maplen {V} (m : gomap V) : nat := from_option size 0%nat m.

(** [m[k]]: indexing a map gives the zero value for a missing key and for a
    nil map. *)
Definition index_map {V} (zero : V) (m : gomap V) (k : string) : V :=
  match m with
  | Some m' => default zero (m' !! k)
  | None => zero
  end.

(** [append(s, xs...)]: appending nothing to a nil slice leaves it nil. *)
Definition append {A} (s : slice A) (xs : list A) : slice A :=
  match s, xs with
  | None, [] => None
  | _, _ => Some (elems s ++ xs)
  end.

(** ** Errors *)

Inductive error : Type :=
| EnvironmentNotActiveError
| ExecError (msg : string)
| SyntaxError (msg : string)
| UnmarshalTypeError (value : string) (type : string)
| ErrorString (msg : string).

(** [errors.Is(err, &environment.EnvironmentNotActiveError{})] *)
Definition isEnvironmentNotActive (err : error) : bool :=
  match err with
  | EnvironmentNotActiveError => true
  | _ => false
  end.

Definition first_err (e1 e2 : option error) : option error :=
  match e1 with
  | Some _ => e1
  | None => e2
  end.

(** ** JSON *)

(** The text of a JSON document, as the scanner of [encoding/json] sees it:
    members of an object in document order, numbers as their literal. *)
Inductive json : Type :=
| JNull
| JBool (b : bool)
| JNum (lit : string)
| JStr (s : string)
| JArr (items : list json)
| JObj (members : list (string * json)).

(** What [json.Unmarshal] stores in an [interface{}]: [nil], [bool],
    [float64] (kept as the literal it was read from, which
    [strconv.ParseFloat] accepted), [string],
    [[]interface{}] and [map[string]interface{}].  [GNilMap] is a nil
    [map[string]interface{}] held in an interface, which the code can build
    but the decoder cannot. *)
Inductive goval : Type :=
| GNil
| GBool (b : bool)
| GNum (lit : string)
| GStr (s : string)
| GArr (items : list goval)
| GMap (m : gmap string goval)
| GNilMap.

Definition json_kind (j : json) : string :=
  match j with
  | JNull => "null"
  | JBool _ => "bool"
  | JNum _ => "number"
  | JStr _ => "string"
  | JArr _ => "array"
  | JObj _ => "object"
  end.

(** *** Numbers *)

(** A number bound for an [interface{}] becomes a [float64] through
    [strconv.ParseFloat(lit, 64)], which fails (with [ErrRange]) when the
    literal rounds to an infinity, that is when its magnitude is at least
    [2^1024 - 2^970], half a unit in the last place above the largest
    [float64]; a literal too small to tell from zero gives zero and no
    error.  The literals the scanner lets through are
    [-? digits (. digits)? ((e|E) (+|-)? digits)?]. *)
Definition digit (c : Ascii.ascii) : option Z :=
  let n := Z.of_N (Ascii.N_of_ascii c) in
  if ((48 <=? n) && (n <=? 57))%Z then Some (n - 48)%Z else None.

(** The digits at the head of [s], read on to [acc]: the number read, how
    many digits it took, and the rest of [s]. *)
Fixpoint digits (s : string) (acc count : Z) : Z * Z * string :=
  match s with
  | String c s' =>
      match digit c with
      | Some d => digits s' (10 * acc + d)%Z (count + 1)%Z
      | None => (acc, count, s)
      end
  | EmptyString => (acc, count, s)
  end.

Definition is_char (n : nat) (c : Ascii.ascii) : bool :=
  Ascii.eqb c (Ascii.ascii_of_nat n).

(** The magnitude of a literal as [(m, x)], standing for [m * 10^x]. *)
Definition magnitude (lit : string) : Z * Z :=
  let unsigned :=
    match lit with
    | String c s' => if is_char 45 c then s' else lit
    | EmptyString => lit
    end in
  let whole := digits unsigned 0 0 in
  let fraction :=
    match whole.2 with
    | String c s' => if is_char 46 c then digits s' whole.1.1 0 else (whole.1.1, 0%Z, whole.2)
    | EmptyString => (whole.1.1, 0%Z, whole.2)
    end in
  let exponent :=
    match fraction.2 with
    | String c s' =>
        if is_char 101 c || is_char 69 c then
          match s' with
          | String c' s'' =>
              if is_char 43 c' then (digits s'' 0 0).1.1
              else if is_char 45 c' then (- (digits s'' 0 0).1.1)%Z
              else (digits s' 0 0).1.1
          | EmptyString => 0%Z
          end
        else 0%Z
    | EmptyString => 0%Z
    end in
  (fraction.1.1, (exponent - fraction.1.2)%Z).

Definition float64_limit : Z := (2 ^ 1024 - 2 ^ 970)%Z.

(** Whether [strconv.ParseFloat(lit, 64)] returns no error. *)
Definition fitsFloat64 (lit : string) : bool :=
  let n := magnitude lit in
  if (0 <=? n.2)%Z then (n.1 * 10 ^ n.2 <? float64_limit)%Z
  else (n.1 <? float64_limit * 10 ^ (- n.2))%Z.

(** The value an [interface{}] holds after decoding.  A number that a
    [float64] cannot hold leaves [nil].  Members are stored in document
    order, so of two members with the same key the later one stays. *)
Fixpoint toAny (j : json) : goval :=
  match j with
  | JNull => GNil
  | JBool b => GBool b
  | JNum n => if fitsFloat64 n then GNum n else GNil
  | JStr s => GStr s
  | JArr items => GArr (map toAny items)
  | JObj members =>
      GMap (foldl (λ acc kv, match kv with (k, v) => <[k := toAny v]> acc end)
                  ∅ members)
  end.

(** The error the decoder saves on its way through a value bound for an
    [interface{}]: the [UnmarshalTypeError] of the first number, in document
    order, that a [float64] cannot hold. *)
Fixpoint rangeError (j : json) : option error :=
  match j with
  | JNum n =>
      if fitsFloat64 n then None
      else Some (UnmarshalTypeError ("number " +:+ n) "float64")
  | JArr items => foldr (λ item e, first_err (rangeError item) e) None items
  | JObj members =>
      foldr (λ kv e, match kv with (_, v) => first_err (rangeError v) e end)
            None members
  | _ => None
  end.

(** *** A Go value and the JSON value it stands for *)




(** A decoder for a Go type takes the JSON value and the current content of
    the target and gives the new content and the first type error.  As in
    [encoding/json], a value of the wrong kind leaves its target alone,
    records an [UnmarshalTypeError] and decoding goes on. *)
Definition decoder (T : Type) : Type := json → T → T * option error.

Definition type_error {T} (j : json) (ty : string) (cur : T) : T * option error :=
  (cur, Some (UnmarshalTypeError (json_kind j) ty)).

Definition decodeString (ty : string) : decoder string := λ j cur,
  match j with
  | JStr s => (s, None)
  | JNull => (cur, None)
  | _ => type_error j ty cur
  end.

(** An [interface{}] target takes whatever the document holds; the only
    error is that of a number out of range. *)
Definition decodeInterface : decoder goval := λ j _, (toAny j, rangeError j).

(** An array resets the slice and appends each element, decoded into a zero
    element; [null] makes the slice nil. *)
Definition decodeSlice {A} (ty : string) (zero : A) (dec : decoder A)
    : decoder (slice A) := λ j cur,
  match j with
  | JNull => (None, None)
  | JArr items =>
      let r := foldl (λ acc item,
                        let d := dec item zero in
                        (acc.1 ++ [d.1], first_err acc.2 d.2))
                     ([], None) items in
      (Some r.1, r.2)
  | _ => type_error j ty cur
  end.

(** An object is stored into the map the target holds (a new one if it is
    nil), each value decoded into a zero element; [null] makes the map nil. *)
Definition decodeMap {V} (ty : string) (zero : V) (dec : decoder V)
    : decoder (gomap V) := λ j cur,
  match j with
  | JNull => (None, None)
  | JObj members =>
      let r := foldl (λ acc kv,
                        let d := dec kv.2 zero in
                        (<[kv.1 := d.1]> acc.1, first_err acc.2 d.2))
                     (default ∅ cur, None) members in
      (Some r.1, r.2)
  | _ => type_error j ty cur
  end.

(** Keys of a struct are matched against the field names exactly or, failing
    that, without regard to (ASCII) case; unknown keys are skipped. *)
Definition lower (c : Ascii.ascii) : Ascii.ascii :=
  let n := Ascii.N_of_ascii c in
  if ((65 <=? n) && (n <=? 90))%N then Ascii.ascii_of_N (n + 32) else c.

Fixpoint to_lower (s : string) : string :=
  match s with
  | EmptyString => EmptyString
  | String c s' => String (lower c) (to_lower s')
  end.

Definition EqualFold (s t : string) : bool := String.eqb (to_lower s) (to_lower t).

Definition find_field {T} (fields : list (string * decoder T)) (key : string)
    : option (decoder T) :=
  match list_find (λ f, f.1 = key) fields with
  | Some (_, f) => Some f.2
  | None => snd <$> (snd <$> list_find (λ f, EqualFold f.1 key = true) fields)
  end.

Definition decodeStruct {T} (ty : string) (fields : list (string * decoder T))
    : decoder T := λ j cur,
  match j with
  | JNull => (cur, None)
  | JObj members =>
      foldl (λ acc kv,
               match find_field fields kv.1 with
               | Some dec => let d := dec kv.2 acc.1 in (d.1, first_err acc.2 d.2)
               | None => acc
               end)
            (cur, None) members
  | _ => type_error j ty cur
  end.

(** ** The transformer's data types *)

(** [PathType], [ConfigType] and [PathMappingType] are string types. *)

(** Modelled from the spec: the declarations of [transformertypes.Artifact],
    [PathMapping] and [TransformOutput] are not among the sources.  The
    fields are those [external] reads and writes, their JSON keys those of
    the wire contract in section 6 of the specification. *)
Record Artifact : Type := mkArtifact {
  Paths : gomap (slice string);
  Configs : gomap goval
}.

Record PathMapping : Type := mkPathMapping {
  PMType : string;
  SrcPath : string;
  DestPath : string;
  TemplateConfig : goval
}.

Record TransformOutput : Type := mkTransformOutput {
  PathMappings : slice PathMapping;
  CreatedArtifacts : slice Artifact
}.

Definition zeroArtifact : Artifact := mkArtifact None None.
Definition zeroPathMapping : PathMapping := mkPathMapping "" "" "" GNil.
Definition zeroTransformOutput : TransformOutput := mkTransformOutput None None.

Definition in_field {T F} (get : T → F) (set : F → T → T) (dec : decoder F)
    : decoder T := λ j cur,
  let d := dec j (get cur) in (set d.1 cur, d.2).

(** Modelled from the spec: the JSON keys of the three structs, which their
    declarations would give, are those of section 6 of the specification. *)
Definition decodeArtifact : decoder Artifact :=
  decodeStruct "transformer.Artifact"
    [ ("paths",
       in_field Paths (λ p a, mkArtifact p (Configs a))
         (decodeMap "map[transformer.PathType][]string" None
            (decodeSlice "[]string" "" (decodeString "string"))));
      ("configs",
       in_field Configs (λ c a, mkArtifact (Paths a) c)
         (decodeMap "map[transformer.ConfigType]interface {}" GNil
            decodeInterface)) ].

Definition decodePathMapping : decoder PathMapping :=
  decodeStruct "transformer.PathMapping"
    [ ("type",
       in_field PMType
         (λ x p, mkPathMapping x (SrcPath p) (DestPath p) (TemplateConfig p))
         (decodeString "transformer.PathMappingType"));
      ("srcPath",
       in_field SrcPath
         (λ x p, mkPathMapping (PMType p) x (DestPath p) (TemplateConfig p))
         (decodeString "string"));
      ("destPath",
       in_field DestPath
         (λ x p, mkPathMapping (PMType p) (SrcPath p) x (TemplateConfig p))
         (decodeString "string"));
      ("templateConfig",
       in_field TemplateConfig
         (λ x p, mkPathMapping (PMType p) (SrcPath p) (DestPath p) x)
         decodeInterface) ].

Definition decodeTransformOutput : decoder TransformOutput :=
  decodeStruct "transformer.TransformOutput"
    [ ("pathMappings",
       in_field PathMappings (λ x o, mkTransformOutput x (CreatedArtifacts o))
         (decodeSlice "[]transformer.PathMapping" zeroPathMapping
            decodePathMapping));
      ("createdArtifacts",
       in_field CreatedArtifacts (λ x o, mkTransformOutput (PathMappings o) x)
         (decodeSlice "[]transformer.Artifact" zeroArtifact decodeArtifact)) ].

(** [map[string][]transformertypes.Artifact], the full shape of a detect
    output. *)
Definition decodeServices : decoder (gomap (slice Artifact)) :=
  decodeMap "map[string][]transformer.Artifact" None
    (decodeSlice "[]transformer.Artifact" zeroArtifact decodeArtifact).

(** [map[string]interface{}], the loose shape. *)
Definition decodeConfig : decoder (gomap goval) :=
  decodeMap "map[string]interface {}" GNil decodeInterface.

(** ** Effects *)

(** A call returns, panics (a run-time error unwinds the stack) or ends the
    process ([logrus.Fatalf] logs and calls [os.Exit(1)]). *)
Inductive outcome (A : Type) : Type :=
| Returned (a : A)
| Panicked (msg : string)
| Exited (code : Z).
Arguments Returned {A} a.
Arguments Panicked {A} msg.
Arguments Exited {A} code.

Definition M (S A : Type) : Type := S → outcome A * S.

#[global] Instance M_ret {S} : MRet (M S) := λ A a s, (Returned a, s).
#[global] Instance M_bind {S} : MBind (M S) := λ A B k m s,
  match m s with
  | (Returned a, s') => k a s'
  | (Panicked msg, s') => (Panicked msg, s')
  | (Exited code, s') => (Exited code, s')
  end.

#[global] Instance M_fmap {S} : FMap (M S) := λ A B f m,
  a ← m; mret (f a).

Definition panic {S A} (msg : string) : M S A := λ s, (Panicked msg, s).
Definition exit {S A} (code : Z) : M S A := λ s, (Exited code, s).

Definition nil_dereference : string :=
  "invalid memory address or nil pointer dereference".
Definition index_out_of_range : string :=
  "index out of range [0] with length 0".

(** [*p] *)
Definition deref {S A} (p : option A) : M S A :=
  match p with
  | Some a => mret a
  | None => panic nil_dereference
  end.

(** [s[0]] *)
Definition index0 {S A} (s : slice A) : M S A :=
  match elems s with
  | x :: _ => mret x
  | [] => panic index_out_of_range
  end.

(** A [for _, a := range l] loop whose body updates the loop's variables. *)
Fixpoint forM {S A B} (body : B → A → M S B) (b : B) (l : list A) : M S B :=
  match l with
  | [] => mret b
  | a :: l' => b' ← body b a; forM body b' l'
  end.

Inductive Level : Type := DebugLevel | InfoLevel | ErrorLevel | FatalLevel.

(** What the process leaves behind: log calls with their format, and calls
    to collaborators that a property counts. *)
Inductive Event : Type :=
| Log (level : Level) (format : string)
| Call (function : string).

#[global] Instance Level_eq_dec : EqDecision Level.
Proof. solve_decision. Defined.
#[global] Instance Event_eq_dec : EqDecision Event.
Proof. solve_decision. Defined.

(** The result of [Environment.Exec]. *)
Record ExecResult : Type := mkExecResult {
  stdout : string;
  stderr : string;
  exitcode : Z;
  exec_err : option error
}.

(** ** Collaborators *)

(** Types that other packages declare. *)
Class Types : Type := {
  World : Type;
  Environment : Type;
  EnvInfo : Type;
  Addr : Type;
  Container : Type;
  ConfigSpec : Type;
  ContainerEngine : Type
}.

Record Transformer `{Types} : Type := mkTransformer {
  Name : string;
  SpecConfig : ConfigSpec
}.
Arguments mkTransformer {_} _ _.

(** [environmenttypes.Command] is a [[]string]. *)
Record ExecutableYamlConfig `{Types} : Type := mkExecutableYamlConfig {
  EnableQA : bool;
  Platforms : slice string;
  DirectoryDetectCMD : slice string;
  TransformCMD : slice string;
  ContainerCfg : Container
}.
Arguments mkExecutableYamlConfig {_} _ _ _ _ _.

Record Executable `{Types} : Type := mkExecutable {
  Config : Transformer;
  Env : option Environment;
  ExecConfig : option ExecutableYamlConfig
}.
Arguments mkExecutable {_} _ _ _.

(** Functions and constants of other packages ([environment], [common],
    [questionreceivers], [qaengine], [artifacts], [transformertypes]) and
    of Go's library ([path/filepath], [strings], [runtime], the scanner of
    [encoding/json]), none of which is among the sources.  Calls that reach
    outside the process take and give the [World]. *)
Class Collaborators `{Types} : Type := {
  Image : Container → string;
  zeroContainer : Container;
  EnvInfoOf : Environment → EnvInfo;
  Context : Environment → string;
  RelTemplatesDir : Environment → string;
  GetEnvironmentSource : Environment → string;
  Exec : Environment → list string → World → ExecResult * World;
  NewEnvironment :
    EnvInfo → option Addr → Container → World →
    (option Environment * option error) * World;
  StartGRPCReceiver : World → (option Addr * option error) * World;
  GetObjFromInterface :
    ConfigSpec → ExecutableYamlConfig → ExecutableYamlConfig * option error;
  IsPresent : slice string → string → bool;
  GOOS : string;
  DefaultSourceDir : string;
  ServiceDirPathType : string;
  TemplatePathMappingType : string;
  SourcePathMappingType : string;
  Rel : string → string → string * option error;
  Join : list string → string;
  TrimSpace : string → string;
  scan : string → option json;
  FetchBoolAnswer : World → bool * World;
  newDockerEngine : World → (option ContainerEngine * option error) * World
}.

(** [json.Unmarshal(data, &v)]: text that is not valid JSON is refused
    before the target is touched. *)
Definition Unmarshal `{Collaborators} {T} (dec : decoder T) (data : string) (v : T)
    : T * option error :=
  match scan data with
  | Some j => dec j v
  | None => (v, Some (SyntaxError data))
  end.

(** ** Package [external] *)

Module external.
Section external.
Context `{Collaborators}.

Record State : Type := mkState {
  world : World;
  trace : list Event
}.

(** [logrus.Debugf], [Infof] and [Errorf]: the arguments of a log call are
    not kept.  [Environment.Decode] only occurs as one of them. *)
Definition logf (level : Level) (format : string) : M State unit := λ s,
  (Returned (), mkState (world s) (trace s ++ [Log level format])).

(** A call that reaches outside the process. *)
Definition call {A} (f : World → A * World) : M State A := λ s,
  let r := f (world s) in (Returned r.1, mkState r.2 (trace s)).

(** [TemplateConfigType] *)
Definition TemplateConfigType : string := "TemplateConfig".

Definition zeroExecutableYamlConfig : ExecutableYamlConfig :=
  mkExecutableYamlConfig false None None None zeroContainer.

(** [Executable.Init], with the receiver's new content in the result. *)
Definition Init (t : Executable) (tc : Transformer) (env : option Environment)
    : M State (Executable * option error) :=
  let d := GetObjFromInterface (SpecConfig tc) zeroExecutableYamlConfig in
  let cfg := d.1 in
  let t := mkExecutable tc (Env t) (Some cfg) in
  match d.2 with
  | Some err =>
      logf ErrorLevel "unable to load config for Transformer %+v into %T : %s";;
      mret (t, Some err)
  | None =>
      qaRPCReceiverAddr ←
        (if EnableQA cfg then
           r ← call StartGRPCReceiver;
           match r.2 with
           | Some _ =>
               logf ErrorLevel "Unable to start QA RPC Receiver engine : %s";;
               logf InfoLevel "Starting transformer that requires QA without QA.";;
               mret r.1
           | None => mret r.1
           end
         else mret None);
      if negb (IsPresent (Platforms cfg) GOOS)
         && String.eqb (Image (ContainerCfg cfg)) ""
      then
        mret (t, Some (ErrorString ("platform " +:+ GOOS +:+
                                    " not supported by transformer " +:+ Name tc)))
      else
        e ← deref env;
        r ← call (NewEnvironment (EnvInfoOf e) qaRPCReceiverAddr (ContainerCfg cfg));
        let t := mkExecutable tc r.1 (Some cfg) in
        match r.2 with
        | Some err =>
            logf ErrorLevel "Unable to create Exec environment : %s";;
            mret (t, Some err)
        | None => mret (t, None)
        end
  end.

(** [Executable.GetConfig] *)
Definition GetConfig (t : Executable) : Transformer * option Environment :=
  (Config t, Env t).

(** [a.Paths[artifacts.ServiceDirPathType]] *)
Definition serviceDirs (a : Artifact) : slice string :=
  index_map None (Paths a) ServiceDirPathType.

(** [Executable.executeDetect] *)
Definition executeDetect (t : Executable) (cmd : list string) (dir : string)
    : M State (gomap (slice Artifact) * option error) :=
  env ← deref (Env t);
  r ← call (Exec env (cmd ++ [dir]));
  match exec_err r with
  | Some err =>
      if isEnvironmentNotActive err then
        logf DebugLevel "%s";;
        mret (None, Some err)
      else
        logf ErrorLevel "Detect failed %s : %s : %d : %s";;
        mret (None, Some err)
  | None =>
      if negb (exitcode r =? 0)%Z then
        logf DebugLevel "Detect did not succeed %s : %s : %d";;
        mret (None, None)
      else
        logf DebugLevel "%s Detect succeeded in %s : %s, %s, %d";;
        let stdout := TrimSpace (stdout r) in
        let d := Unmarshal decodeServices stdout None in
        match d.2 with
        | None => mret (d.1, None)
        | Some _ =>
            logf DebugLevel
              "Error in unmarshalling output json to full detect output %s: %s.";;
            config ←
              (if negb (String.eqb stdout "") then
                 let c := Unmarshal decodeConfig stdout (Some ∅) in
                 match c.2 with
                 | Some _ =>
                     logf DebugLevel "Error in unmarshalling json %s: %s.";;
                     mret c.1
                 | None => mret c.1
                 end
               else mret None);
            let trans :=
              mkArtifact
                (Some {[ ServiceDirPathType := Some [dir] ]})
                (Some {[ TemplateConfigType := from_option GMap GNilMap config ]}) in
            mret (Some {[ "" := Some [trans] ]}, None)
        end
  end.

(** A [for i, x := range s] loop over a slice whose body may assign
    [s[i]]: the indices of the slice as it was when the loop began are
    visited in order and each element is read when its turn comes. *)
Definition range_update {A} (f : A → option A) (l : list A) : list A :=
  foldl (λ acc i,
           match acc !! i with
           | Some x => from_option (λ y, <[i := y]> acc) acc (f x)
           | None => acc
           end)
        l (seq 0 (length l)).

(** The body of the inner loop of [DirectoryDetect]: the artifact to store
    at the index, if any. *)
Definition defaultPaths (dir : string) (nst : Artifact) : option Artifact :=
  if (maplen (Paths nst) =? 0)%nat then
    Some (mkArtifact (Some {[ ServiceDirPathType := Some [dir] ]}) (Configs nst))
  else None.

(** What the inner loop leaves at an index. *)
Definition withDefaultPaths (dir : string) (nst : Artifact) : Artifact :=
  default nst (defaultPaths dir nst).

(** The loop of [DirectoryDetect] over the services: every key the map has
    is visited once, in no particular order, and assigned its slice after the
    inner loop has run over it. *)
Definition defaultServices (dir : string) (services : gomap (slice Artifact))
    : gomap (slice Artifact) :=
  (λ m, map_fold (λ sn ns acc, <[sn := range_update (defaultPaths dir) <$> ns]> acc) m m)
    <$> services.

(** [Executable.DirectoryDetect] *)
Definition DirectoryDetect (t : Executable) (dir : string)
    : M State (gomap (slice Artifact) * option error) :=
  cfg ← deref (ExecConfig t);
  match DirectoryDetectCMD cfg with
  | None => mret (None, None)
  | Some cmd =>
      r ← executeDetect t cmd dir;
      match r.2 with
      | Some err => mret (r.1, Some err)
      | None => mret (defaultServices dir r.1, None)
      end
  end.

(** The two path mappings [Transform] makes for an artifact when no
    transform command is declared. *)
Definition templateMappings (env : Environment) (a : Artifact) (relSrcPath : string)
    : list PathMapping :=
  let config :=
    match Configs a with
    | Some _ => index_map GNil (Configs a) TemplateConfigType
    | None => GNil
    end in
  [ mkPathMapping TemplatePathMappingType
      (Join [Context env; RelTemplatesDir env])
      (Join [DefaultSourceDir; relSrcPath])
      config;
    mkPathMapping SourcePathMappingType "" DefaultSourceDir GNil ].

(** The path [Transform] hands to the transform command: [""], replaced by
    the first service directory if [a.Paths] and the list are not nil. *)
Definition primaryPath (a : Artifact) : M State string :=
  match Paths a with
  | Some _ =>
      match serviceDirs a with
      | Some _ => index0 (serviceDirs a)
      | None => mret ""
      end
  | None => mret ""
  end.

(** The body of the loop of [Transform]; [continue] returns the loop's
    variables as they are. *)
Definition transformArtifact (t : Executable)
    (acc : slice PathMapping * slice Artifact) (a : Artifact)
    : M State (slice PathMapping * slice Artifact) :=
  cfg ← deref (ExecConfig t);
  match TransformCMD cfg with
  | None =>
      env ← deref (Env t);
      p ← index0 (serviceDirs a);
      let r := Rel (GetEnvironmentSource env) p in
      match r.2 with
      | Some _ =>
          logf ErrorLevel "Unable to convert source path %s to be relative : %s";;
          mret acc
      | None =>
          mret (append acc.1 (templateMappings env a r.1), acc.2)
      end
  | Some cmd =>
      path ← primaryPath a;
      env ← deref (Env t);
      r ← call (Exec env (cmd ++ [path]));
      match exec_err r with
      | Some err =>
          if isEnvironmentNotActive err then
            logf DebugLevel "%s";;
            mret acc
          else
            logf ErrorLevel "Transform failed %s : %s : %d : %s";;
            mret acc
      | None =>
          if negb (exitcode r =? 0)%Z then
            logf DebugLevel "Transform did not succeed %s : %s : %d : %s";;
            mret acc
          else
            logf DebugLevel "%s Transform succeeded in %s : %s, %s, %d";;
            let stdout := TrimSpace (stdout r) in
            let d := Unmarshal decodeTransformOutput stdout zeroTransformOutput in
            (match d.2 with
             | Some _ => logf ErrorLevel "Error in unmarshalling json %s: %s."
             | None => mret ()
             end);;
            mret (append acc.1 (elems (PathMappings d.1)),
                  append acc.2 (elems (CreatedArtifacts d.1)))
      end
  end.

(** In the words of the specification: the artifact's service directory made
    relative to the environment's source root, if it can be. *)
Definition relativeTo (env : Environment) (a : Artifact) : option string :=
  match elems (serviceDirs a) with
  | p :: _ =>
      match Rel (GetEnvironmentSource env) p with
      | (rel, None) => Some rel
      | (_, Some _) => None
      end
  | [] => None
  end.

(** In the words of the specification: a template mapping from the plugin's
    templates directory to the default source directory joined with the
    relative service path, carrying the artifact's [TemplateConfig] config,
    followed by a source mapping with an empty source path to the default
    source directory; nothing for an artifact whose path cannot be made
    relative. *)
Definition fallbackMappings (env : Environment) (a : Artifact) : list PathMapping :=
  match relativeTo env a with
  | Some rel =>
      [ mkPathMapping TemplatePathMappingType
          (Join [Context env; RelTemplatesDir env])
          (Join [DefaultSourceDir; rel])
          (index_map GNil (Configs a) TemplateConfigType);
        mkPathMapping SourcePathMappingType "" DefaultSourceDir GNil ]
  | None => []
  end.

(** What [Transform] logs for an artifact it skips in that mode. *)
Definition fallbackLog (env : Environment) (a : Artifact) : list Event :=
  match relativeTo env a with
  | Some _ => []
  | None => [ Log ErrorLevel "Unable to convert source path %s to be relative : %s" ]
  end.

(** [Executable.Transform] *)
Definition Transform (t : Executable)
    (newArtifacts alreadySeenArtifacts : slice Artifact)
    : M State (slice PathMapping * slice Artifact * option error) :=
  acc ← forM (transformArtifact t) (Some [], Some []) (elems newArtifacts);
  mret (acc.1, acc.2, None).

End external.
End external.

(** ** Package [container] *)

Module container.
Section container.
Context `{Collaborators}.

(** The package's variables, the world and what the process has done. *)
Record State : Type := mkState {
  inited : bool;
  disabled : bool;
  workingEngine : option ContainerEngine;
  world : World;
  trace : list Event
}.

(** The state a process starts in: every package variable has its zero
    value. *)
Definition start (w : World) : State := mkState false false None w [].

Definition get : M State State := λ s, (Returned s, s).

Definition set_inited (b : bool) : M State unit := λ s,
  (Returned (), mkState b (disabled s) (workingEngine s) (world s) (trace s)).
Definition set_disabled (b : bool) : M State unit := λ s,
  (Returned (), mkState (inited s) b (workingEngine s) (world s) (trace s)).
Definition set_workingEngine (e : option ContainerEngine) : M State unit := λ s,
  (Returned (), mkState (inited s) (disabled s) e (world s) (trace s)).

Definition emit (ev : Event) : M State unit := λ s,
  (Returned (),
   mkState (inited s) (disabled s) (workingEngine s) (world s) (trace s ++ [ev])).

(** A call to a collaborator, recorded under the function's name. *)
Definition call {A} (name : string) (f : World → A * World) : M State A := λ s,
  let r := f (world s) in
  (Returned r.1,
   mkState (inited s) (disabled s) (workingEngine s) r.2 (trace s ++ [Call name])).

(** [logrus.Fatalf] *)
Definition Fatalf {A} (format : string) : M State A :=
  emit (Log FatalLevel format);; exit 1%Z.

(** [initContainerEngine] *)
Definition initContainerEngine : M State (option error) :=
  r ← call "newDockerEngine" newDockerEngine;
  set_workingEngine r.1;;
  match r.2 with
  | Some _ =>
      mret (Some (ErrorString
                    "failed to use docker as the container engine. Error: %q"))
  | None =>
      s ← get;
      match workingEngine s with
      | None => mret (Some (ErrorString "no working container runtime available"))
      | Some _ => mret None
      end
  end.

(** [GetContainerEngine] *)
Definition GetContainerEngine : M State (option ContainerEngine) :=
  s ← get;
  (if negb (inited s) then
     answer ← call "qaengine.FetchBoolAnswer" FetchBoolAnswer;
     set_disabled (negb answer);;
     s ← get;
     (if negb (disabled s) then
        err ← initContainerEngine;
        match err with
        | Some _ => Fatalf "failed to initialize the container engine. Error: %q"
        | None => mret ()
        end
      else mret ());;
     set_inited true
   else mret ());;
  s ← get;
  mret (workingEngine s).

(** [IsDisabled] *)
Definition IsDisabled : M State bool :=
  s ← get;
  mret (disabled s).

(** The calls a process makes to this package, one after the other. *)
Inductive Request : Type := ReqGetContainerEngine | ReqIsDisabled.

Inductive Reply : Type :=
| RepEngine (e : option ContainerEngine)
| RepDisabled (b : bool).

Definition serve (r : Request) : M State Reply :=
  match r with
  | ReqGetContainerEngine => RepEngine <$> GetContainerEngine
  | ReqIsDisabled => RepDisabled <$> IsDisabled
  end.

(** What a request is answered with once the engine has been looked for. *)
Definition cached (s : State) (r : Request) : Reply :=
  match r with
  | ReqGetContainerEngine => RepEngine (workingEngine s)
  | ReqIsDisabled => RepDisabled (disabled s)
  end.

Fixpoint run (rs : list Request) : M State (list Reply) :=
  match rs with
  | [] => mret []
  | r :: rs' => x ← serve r; xs ← run rs'; mret (x :: xs)
  end.

(** How often a collaborator was called. *)
Definition calls (name : string) (tr : list Event) : nat :=
  length (filter (λ ev, ev = Call name) tr).

End container.
End container.

(** ** A concrete set of collaborators

    A small world to run the functions in: commands are a table from command
    lines to results, an environment is its source root, the scanner knows
    the documents the commands print, [IsPresent] is membership, and the
    functions on paths and strings are Go's on the clean ASCII paths and
    texts used here. *)

Module scenario.

Record SWorld : Type := mkSWorld {
  programs : list string → ExecResult;
  consent : bool;
  docker : option nat * option error;
  receiver : option nat * option error;
  environments : option string * option error
}.

(** The text with every single quote replaced by a double quote. *)
Fixpoint dq (s : string) : string :=
  match s with
  | EmptyString => EmptyString
  | String c s' =>
      String (if Ascii.eqb c (Ascii.ascii_of_nat 39) then Ascii.ascii_of_nat 34 else c)
             (dq s')
  end.

Definition is_space (c : Ascii.ascii) : bool :=
  let n := Ascii.nat_of_ascii c in
  ((9 <=? n) && (n <=? 13) || (n =? 32))%nat.

Fixpoint trim_left (s : string) : string :=
  match s with
  | String c s' => if is_space c then trim_left s' else s
  | EmptyString => EmptyString
  end.

Fixpoint trim_right (s : string) : string :=
  match s with
  | String c s' =>
      match trim_right s' with
      | EmptyString => if is_space c then EmptyString else String c EmptyString
      | r => String c r
      end
  | EmptyString => EmptyString
  end.

Definition slash : Ascii.ascii := Ascii.ascii_of_nat 47.

Definition is_abs (path : string) : bool :=
  match path with
  | String c _ => Ascii.eqb c slash
  | EmptyString => false
  end.

(** The names between the slashes of a path, [cur] being the one read so
    far. *)
Fixpoint components (cur path : string) : list string :=
  match path with
  | EmptyString => if String.eqb cur "" then [] else [cur]
  | String c path' =>
      if Ascii.eqb c slash then
        (if String.eqb cur "" then [] else [cur]) ++ components "" path'
      else components (cur +:+ String c "") path'
  end.

Fixpoint drop_common (base targ : list string) : list string * list string :=
  match base, targ with
  | b :: base', t :: targ' =>
      if String.eqb b t then drop_common base' targ' else (base, targ)
  | _, _ => (base, targ)
  end.

(** [filepath.Rel] on clean paths: up from what is left of the base, down
    what is left of the target; an absolute and a relative path have no
    relative path between them. *)
Definition relative (base targ : string) : string * option error :=
  if Bool.eqb (is_abs base) (is_abs targ) then
    let d := drop_common (components "" base) (components "" targ) in
    match replicate (length d.1) ".." ++ d.2 with
    | [] => (".", None)
    | parts => (String.concat "/" parts, None)
    end
  else
    ("", Some (ErrorString ("Rel: can't make " +:+ targ +:+ " relative to " +:+ base))).

(** The documents the commands of this world print. *)
Definition config_blob : list (string * json) :=
  [ ("port", JNum "8080"); ("name", JStr "web") ].

Definition bad_output : json :=
  JObj [ ("pathMappings",
          JArr [ JObj [ ("type", JStr "source"); ("srcPath", JStr "");
                        ("destPath", JStr "/out") ];
                 JNum "7" ]) ].

Definition empty_dirs : json :=
  JObj [ ("svc", JArr [ JObj [ ("paths", JObj [ ("serviceDir", JArr []) ]) ] ]) ].

Definition two_artifacts : json :=
  JObj [ ("web",
          JArr [ JObj [ ("configs", JObj [ ("port", JNum "8080") ]) ];
                 JObj [ ("paths", JObj [ ("source", JArr [ JStr "/src/web" ]) ]) ] ]) ].

Definition documents : list (string * json) :=
  [ (dq "{'port':8080,'name':'web'}", JObj config_blob);
    (dq "{'pathMappings':[{'type':'source','srcPath':'','destPath':'/out'},7]}",
     bad_output);
    (dq "{'svc':[{'paths':{'serviceDir':[]}}]}", empty_dirs);
    (dq "{'web':[{'configs':{'port':8080}},{'paths':{'source':['/src/web']}}]}",
     two_artifacts) ].

#[export] Instance types : Types := {|
  World := SWorld;
  Environment := string;
  EnvInfo := unit;
  Addr := nat;
  Container := string;
  ConfigSpec := bool * slice string * slice string * slice string * string;
  ContainerEngine := nat
|}.

#[export] Instance collaborators : Collaborators := {|
  Image := λ c, c;
  zeroContainer := "";
  EnvInfoOf := λ _, ();
  Context := λ _, "/plugins/demo";
  RelTemplatesDir := λ _, "templates";
  GetEnvironmentSource := λ e, e;
  Exec := λ _ cmd w, (programs w cmd, w);
  NewEnvironment := λ _ _ _ w, (environments w, w);
  StartGRPCReceiver := λ w, (receiver w, w);
  GetObjFromInterface := λ spec _,
    (mkExecutableYamlConfig spec.1.1.1.1 spec.1.1.1.2 spec.1.1.2 spec.1.2 spec.2,
     None);
  IsPresent := λ l x, bool_decide (x ∈ elems l);
  GOOS := "linux";
  DefaultSourceDir := "source";
  ServiceDirPathType := "serviceDir";
  TemplatePathMappingType := "template";
  SourcePathMappingType := "source";
  Rel := relative;
  Join := String.concat "/";
  TrimSpace := λ s, trim_right (trim_left s);
  scan := λ s, snd <$> find (λ d, String.eqb d.1 s) documents;
  FetchBoolAnswer := λ w, (consent w, w);
  newDockerEngine := λ w, (docker w, w)
|}.

Definition ok (out : string) : ExecResult := mkExecResult out "" 0%Z None.
Definition exits (code : Z) : ExecResult := mkExecResult "" "" code None.
Definition fails (err : error) : ExecResult := mkExecResult "" "" 0%Z (Some err).

Definition quiet : SWorld :=
  mkSWorld (λ _, exits 127) false (None, None) (None, None) (Some "/src", None).

Definition with_programs (p : list string → ExecResult) : SWorld :=
  mkSWorld p false (None, None) (None, None) (Some "/src", None).

(** A plugin with a detect and a transform command, initialised. *)
Definition plugin : Executable :=
  mkExecutable
    (mkTransformer "demo" (false, Some ["linux"], Some ["detect.sh"], Some ["transform.sh"], ""))
    (Some "/src")
    (Some (mkExecutableYamlConfig false (Some ["linux"]) (Some ["detect.sh"])
             (Some ["transform.sh"]) "")).

(** A plugin with no commands: templates only. *)
Definition templates_only : Executable :=
  mkExecutable
    (mkTransformer "tpl" (false, Some ["linux"], None, None, ""))
    (Some "/src")
    (Some (mkExecutableYamlConfig false (Some ["linux"]) None None "")).

Definition artifact_at (dir : string) : Artifact :=
  mkArtifact (Some {[ "serviceDir" := Some [dir] ]}) None.

(** A world in which one command line gives [r] and every other one is not
    found. *)
Definition answering (line : list string) (r : ExecResult) : SWorld :=
  with_programs (λ cmd, if bool_decide (cmd = line) then r else exits 127).

Definition state (w : SWorld) : external.State := external.mkState w [].

(** The detect command prints a configuration blob, with white space around. *)
Definition blob_world : SWorld :=
  answering ["detect.sh"; "/src/app"]
    (ok ("  " +:+ dq "{'port':8080,'name':'web'}" +:+ " ")).

(** The detect command prints two artifacts, the first without paths. *)
Definition detect_world : SWorld :=
  answering ["detect.sh"; "/src/app"]
    (ok (dq "{'web':[{'configs':{'port':8080}},{'paths':{'source':['/src/web']}}]}")).

Definition without_paths : Artifact :=
  mkArtifact None (Some {[ "port" := GNum "8080" ]}).

Definition with_source_path : Artifact :=
  mkArtifact (Some {[ "source" := Some ["/src/web"] ]}) None.

(** The detect command cannot be executed. *)
Definition permission_denied : error :=
  ExecError "fork/exec detect.sh: permission denied".

Definition failing_world : SWorld :=
  answering ["detect.sh"; "/src/app"] (fails permission_denied).

(** The detect command prints a service whose list of directories is
    empty. *)
Definition empty_dirs_world : SWorld :=
  answering ["detect.sh"; "/src/app"]
    (ok (dq "{'svc':[{'paths':{'serviceDir':[]}}]}")).

Definition no_directory : Artifact :=
  mkArtifact (Some {[ "serviceDir" := Some [] ]}) None.

(** The transform command exits 0 and prints a list of path mappings whose
    second element is a number. *)
Definition bad_output_world : SWorld :=
  answering ["transform.sh"; "/src/app"]
    (ok (dq "{'pathMappings':[{'type':'source','srcPath':'','destPath':'/out'},7]}")).

(** The QA receiver cannot listen. *)
Definition address_in_use : error := ErrorString "listen tcp :0: address in use".

Definition no_receiver : SWorld :=
  mkSWorld (λ _, exits 127) false (None, None) (None, Some address_in_use)
    (Some "/run", None).

(** A plugin that asks for QA, for the given platforms, without an image. *)
Definition qa_plugin (platforms : list string) : Transformer :=
  mkTransformer "qa" (true, Some platforms, Some ["detect.sh"], None, "").

Definition qa_config (platforms : list string) : ExecutableYamlConfig :=
  mkExecutableYamlConfig true (Some platforms) (Some ["detect.sh"]) None "".

Definition uninitialized : Executable :=
  mkExecutable (mkTransformer "" (false, None, None, None, "")) None None.

Definition plugin_config : ExecutableYamlConfig :=
  mkExecutableYamlConfig false (Some ["linux"]) (Some ["detect.sh"])
    (Some ["transform.sh"]) "".

Definition templates_config : ExecutableYamlConfig :=
  mkExecutableYamlConfig false (Some ["linux"]) None None "".

(** The operator agrees to containers and docker answers. *)
Definition docker_world : SWorld :=
  mkSWorld (λ _, exits 127) true (Some 1%nat, None) (None, None) (Some "/src", None).



(** The detect command exits 0 and prints a line feed. *)
Definition blank_world : SWorld :=
  answering ["detect.sh"; "/src/app"] (ok (String (Ascii.ascii_of_nat 10) "")).

(** The detect command exits 0 and prints a word. *)
Definition chatty_world : SWorld :=
  answering ["detect.sh"; "/src/app"] (ok "found nothing").

(** The transform command exits 0 and prints one source mapping. *)
Definition good_output : json :=
  JObj [ ("pathMappings",
          JArr [ JObj [ ("type", JStr "source"); ("srcPath", JStr "");
                        ("destPath", JStr "/out") ] ]);
         ("createdArtifacts", JArr []) ].

(** The collaborators again, with a scanner that knows more documents. *)
Definition reading (more : list (string * json)) : Collaborators := {|
  Image := Image;
  zeroContainer := zeroContainer;
  EnvInfoOf := EnvInfoOf;
  Context := Context;
  RelTemplatesDir := RelTemplatesDir;
  GetEnvironmentSource := GetEnvironmentSource;
  Exec := Exec;
  NewEnvironment := NewEnvironment;
  StartGRPCReceiver := StartGRPCReceiver;
  GetObjFromInterface := GetObjFromInterface;
  IsPresent := IsPresent;
  GOOS := GOOS;
  DefaultSourceDir := DefaultSourceDir;
  ServiceDirPathType := ServiceDirPathType;
  TemplatePathMappingType := TemplatePathMappingType;
  SourcePathMappingType := SourcePathMappingType;
  Rel := Rel;
  Join := Join;
  TrimSpace := TrimSpace;
  scan := λ s, snd <$> find (λ d, String.eqb d.1 s) (more ++ documents);
  FetchBoolAnswer := FetchBoolAnswer;
  newDockerEngine := newDockerEngine
|}.

Definition good_text : string :=
  dq "{'pathMappings':[{'type':'source','srcPath':'','destPath':'/out'}],'createdArtifacts':[]}".

Definition good_world : SWorld :=
  answering ["transform.sh"; "/src/app"] (ok good_text).

Definition plugin_transformer : Transformer :=
  mkTransformer "demo"
    (false, Some ["linux"], Some ["detect.sh"], Some ["transform.sh"], "").




End scenario.

(** * Tactics *)

(** Simplify without unfolding the decoders and the loops. *)
Ltac step :=
  cbn -[external.defaultServices decodeServices decodeConfig decodeTransformOutput
        toAny external.TemplateConfigType].

Ltac unfold_monad :=
  unfold mbind, M_bind, mret, M_ret, fmap, M_fmap, deref, panic, exit,
    external.logf, external.call in *.

Ltac unfold_state :=
  unfold mbind, M_bind, mret, M_ret, fmap, M_fmap, container.get,
    container.set_inited, container.set_disabled, container.set_workingEngine,
    container.emit, container.call, container.Fatalf, exit in *.

(** * Properties of package [external] *)

Section external_properties.
Context `{Collaborators}.
Import external.

(** ** The loops of [DirectoryDetect] *)

Lemma range_update_from {A} (f : A → option A) (l2 l1 : list A) :
  foldl (λ acc i,
           match acc !! i with
           | Some x => from_option (λ y, <[i := y]> acc) acc (f x)
           | None => acc
           end)
        (l1 ++ l2) (seq (length l1) (length l2))
  = l1 ++ map (λ x, default x (f x)) l2.
Proof.
  revert l1. induction l2 as [|x l2 IH]; intros l1; [done|].
  cbn [length seq foldl map].
  rewrite list_lookup_middle by done.
  replace (from_option (λ y, <[length l1 := y]> (l1 ++ x :: l2)) (l1 ++ x :: l2) (f x))
    with ((l1 ++ [default x (f x)]) ++ l2).
  - specialize (IH (l1 ++ [default x (f x)])).
    rewrite length_app in IH. cbn [length] in IH.
    replace (length l1 + 1)%nat with (S (length l1)) in IH by lia.
    rewrite IH. by rewrite <- app_assoc.
  - rewrite <- app_assoc. cbn [app].
    destruct (f x) as [y|]; cbn [from_option default]; [|done].
    rewrite insert_app_r_alt by lia.
    by rewrite Nat.sub_diag.
Qed.

Lemma range_update_map {A} (f : A → option A) (l : list A) :
  range_update f l = map (λ x, default x (f x)) l.
Proof. exact (range_update_from f l []). Qed.

Lemma map_fold_assign {V} (g : V → V) (m m0 : gmap string V) :
  map_fold (λ k v acc, <[k := g v]> acc) m0 m = (g <$> m) ∪ m0.
Proof.
  apply (map_fold_weak_ind (λ r m, r = (g <$> m) ∪ m0)).
  - by rewrite fmap_empty, (left_id_L ∅ (∪)).
  - intros k v m' r Hk ->. by rewrite fmap_insert, insert_union_l.
Qed.

Lemma defaultServices_fmap (dir : string) (m : gmap string (slice Artifact)) :
  defaultServices dir (Some m)
  = Some (fmap (M:=option) (map (withDefaultPaths dir)) <$> m).
Proof.
  unfold defaultServices. cbn [fmap option_fmap option_map]. f_equal.
  rewrite (map_fold_assign (λ ns, range_update (defaultPaths dir) <$> ns)).
  apply map_eq. intros k.
  rewrite lookup_union, !lookup_fmap.
  destruct (m !! k) as [ns|]; cbn; [|done].
  f_equal. destruct ns as [l|]; cbn; [|done].
  f_equal. apply range_update_map.
Qed.

Lemma serviceDirs_singleton (dir : string) (c : gomap goval) :
  serviceDirs (mkArtifact (Some {[ ServiceDirPathType := Some [dir] ]}) c) = Some [dir].
Proof. unfold serviceDirs, index_map. cbn. by rewrite lookup_singleton_eq. Qed.

Lemma withDefaultPaths_empty (dir : string) (nst : Artifact) :
  maplen (Paths nst) = 0%nat →
  withDefaultPaths dir nst
  = mkArtifact (Some {[ ServiceDirPathType := Some [dir] ]}) (Configs nst).
Proof. intros Hlen. unfold withDefaultPaths, defaultPaths. by rewrite Hlen. Qed.

Lemma withDefaultPaths_nonempty (dir : string) (nst : Artifact) :
  maplen (Paths nst) ≠ 0%nat → withDefaultPaths dir nst = nst.
Proof.
  intros Hlen. unfold withDefaultPaths, defaultPaths.
  destruct (Nat.eqb_spec (maplen (Paths nst)) 0); [done|reflexivity].
Qed.

(** C6. After a detect execution that succeeded with a service map,
    [DirectoryDetect] returns a map with the same services, each with as many
    artifacts as before; an artifact whose path mapping was empty now has
    exactly [serviceDir: [dir]] as its paths (its configs are kept), and an
    artifact with a path mapping that was not empty is unchanged. *)
Theorem DirectoryDetect_default_path_injection
    (t : Executable) (cfg : ExecutableYamlConfig) (cmd : list string)
    (dir : string) (s s' : State) (services : gmap string (slice Artifact)) :
  ExecConfig t = Some cfg →
  DirectoryDetectCMD cfg = Some cmd →
  executeDetect t cmd dir s = (Returned (Some services, None), s') →
  ∃ services' : gmap string (slice Artifact),
    DirectoryDetect t dir s = (Returned (Some services', None), s') ∧
    (∀ sn, services' !! sn = None ↔ services !! sn = None) ∧
    (∀ sn ns, services !! sn = Some ns →
       ∃ ns', services' !! sn = Some ns' ∧
              (ns' = None ↔ ns = None) ∧
              length (elems ns') = length (elems ns) ∧
              ∀ i nst, elems ns !! i = Some nst →
                ∃ nst', elems ns' !! i = Some nst' ∧
                  (maplen (Paths nst) = 0%nat →
                     Paths nst' = Some {[ ServiceDirPathType := Some [dir] ]} ∧
                     serviceDirs nst' = Some [dir] ∧
                     Configs nst' = Configs nst) ∧
                  (maplen (Paths nst) ≠ 0%nat → nst' = nst)).
Proof.
  intros Hcfg Hcmd Hdetect.
  exists (fmap (M:=option) (map (withDefaultPaths dir)) <$> services).
  split; [|split].
  - unfold DirectoryDetect. rewrite Hcfg. unfold_monad. cbn. rewrite Hcmd.
    rewrite Hdetect. cbn -[defaultServices]. by rewrite defaultServices_fmap.
  - intros sn. rewrite lookup_fmap. by destruct (services !! sn).
  - intros sn ns Hsn. rewrite lookup_fmap, Hsn. cbn.
    eexists; split; [reflexivity|]. split; [|split].
    + by destruct ns.
    + destruct ns; cbn; [apply length_map|done].
    + intros i nst Hi. exists (withDefaultPaths dir nst). split.
      * destruct ns as [l|]; cbn in *; [|by rewrite lookup_nil in Hi].
        by rewrite list_lookup_fmap, Hi.
      * split.
        -- intros Hlen. rewrite (withDefaultPaths_empty _ _ Hlen). cbn.
           split; [done|].
           split; [exact (serviceDirs_singleton dir (Configs nst))|done].
        -- apply withDefaultPaths_nonempty.
Qed.

(** ** The fallback of [executeDetect] *)








Lemma defaultServices_singleton (dir sn : string) (a : Artifact) :
  maplen (Paths a) ≠ 0%nat →
  defaultServices dir (Some {[ sn := Some [a] ]}) = Some {[ sn := Some [a] ]}.
Proof.
  intros Hlen.
  rewrite defaultServices_fmap, map_fmap_singleton.
  cbn [fmap option_fmap option_map map].
  by rewrite withDefaultPaths_nonempty.
Qed.


(** ** Failures of the detect command *)

(** C4, as amended.  When the detect command cannot be executed,
    [DirectoryDetect] returns a nil result together with the error of
    [Exec], whatever its kind (only the log level tells an environment that
    is not active from other errors); when it runs and exits with a code
    other than 0, [DirectoryDetect] returns a nil result and no error; and an
    error that [DirectoryDetect] returns is always the one [Exec] gave. *)
Theorem DirectoryDetect_failure
    (t : Executable) (cfg : ExecutableYamlConfig) (cmd : list string)
    (env : Environment) (dir : string) (s : State) (r : ExecResult) (w' : World) :
  ExecConfig t = Some cfg →
  DirectoryDetectCMD cfg = Some cmd →
  Env t = Some env →
  Exec env (cmd ++ [dir]) (world s) = (r, w') →
  (∀ err, exec_err r = Some err →
     DirectoryDetect t dir s
     = (Returned (None, Some err),
        mkState w'
          (trace s ++
           [ if isEnvironmentNotActive err then Log DebugLevel "%s"
             else Log ErrorLevel "Detect failed %s : %s : %d : %s" ]))) ∧
  (exec_err r = None → exitcode r ≠ 0%Z →
     DirectoryDetect t dir s
     = (Returned (None, None),
        mkState w'
          (trace s ++ [ Log DebugLevel "Detect did not succeed %s : %s : %d" ]))) ∧
  (∀ res err s',
     DirectoryDetect t dir s = (Returned (res, Some err), s') →
     exec_err r = Some err).
Proof.
  intros Hcfg Hcmd Henv Hexec.
  unfold DirectoryDetect, executeDetect. rewrite Hcfg, Henv. unfold_monad.
  step. rewrite Hcmd. step. rewrite Hexec. step.
  split; [|split].
  - intros err ->. by destruct (isEnvironmentNotActive err).
  - intros -> Hexit. apply Z.eqb_neq in Hexit. by rewrite Hexit.
  - intros res err s'. destruct (exec_err r) as [e|].
    + destruct (isEnvironmentNotActive e); step; congruence.
    + destruct (exitcode r =? 0)%Z; step; [|congruence].
      destruct (Unmarshal decodeServices (TrimSpace (stdout r)) None) as [out [e|]];
        step; [|congruence].
      destruct (String.eqb (TrimSpace (stdout r)) ""); step; [congruence|].
      destruct (Unmarshal decodeConfig (TrimSpace (stdout r)) (Some ∅)) as [c [e'|]];
        step; congruence.
Qed.

(** ** [Init] *)

(** C7. If, in the configuration [Init] loads, the host's operating system
    is not among the platforms and the container image is empty, [Init]
    returns an error, and the receiver is left without an environment of its
    own: its [Env] is what it was, no environment is created. *)
Theorem Init_unsupported_platform
    (t : Executable) (tc : Transformer) (env : option Environment) (s : State) :
  let cfg := (GetObjFromInterface (SpecConfig tc) zeroExecutableYamlConfig).1 in
  IsPresent (Platforms cfg) GOOS = false →
  Image (ContainerCfg cfg) = "" →
  ∃ err s',
    Init t tc env s
    = (Returned (mkExecutable tc (Env t) (Some cfg), Some err), s').
Proof.
  intros cfg Hplatform Himage. subst cfg. unfold Init.
  destruct (GetObjFromInterface (SpecConfig tc) zeroExecutableYamlConfig)
    as [cfg [err|]] eqn:Hload; cbn [fst snd] in *.
  - unfold_monad. cbn. eauto.
  - rewrite Hplatform, Himage. unfold_monad.
    destruct (EnableQA cfg); cbn; [|eauto].
    destruct (StartGRPCReceiver (world s)) as [[addr [err|]] w1]; cbn; eauto.
Qed.

(** C10. When the configuration asks for QA and the receiver fails to start
    (an error and no address), [Init] logs the failure in two lines and goes
    on; the receiver's error is not what it returns.  What it returns is
    what the rest of [Init] gives: the platform error, with no environment
    created, if the platform check fails, and otherwise the outcome of
    creating the environment with a nil receiver address.  So when the
    platform check passes and the environment is created, [Init] returns a
    nil error and a receiver with that environment, initialised without
    QA. *)
Theorem Init_QA_receiver_failure
    (t : Executable) (tc : Transformer) (e : Environment) (s : State)
    (cfg : ExecutableYamlConfig) (err : error) (w1 : World) :
  GetObjFromInterface (SpecConfig tc) zeroExecutableYamlConfig = (cfg, None) →
  EnableQA cfg = true →
  StartGRPCReceiver (world s) = ((None, Some err), w1) →
  let logged :=
    trace s ++
    [ Log ErrorLevel "Unable to start QA RPC Receiver engine : %s";
      Log InfoLevel "Starting transformer that requires QA without QA." ] in
  let r := NewEnvironment (EnvInfoOf e) None (ContainerCfg cfg) w1 in
  Init t tc (Some e) s
  = (if negb (IsPresent (Platforms cfg) GOOS)
        && String.eqb (Image (ContainerCfg cfg)) ""
     then
       (Returned
          (mkExecutable tc (Env t) (Some cfg),
           Some (ErrorString ("platform " +:+ GOOS +:+
                              " not supported by transformer " +:+ Name tc))),
        mkState w1 logged)
     else
       (Returned (mkExecutable tc r.1.1 (Some cfg), r.1.2),
        mkState r.2
          (logged ++
           match r.1.2 with
           | Some _ => [ Log ErrorLevel "Unable to create Exec environment : %s" ]
           | None => []
           end))) ∧
  (IsPresent (Platforms cfg) GOOS = true ∨ Image (ContainerCfg cfg) ≠ "" →
   r.1.2 = None →
   Init t tc (Some e) s
   = (Returned (mkExecutable tc r.1.1 (Some cfg), None), mkState r.2 logged)).
Proof.
  intros Hload Hqa Hstart logged r.
  assert (Hrun :
    Init t tc (Some e) s
    = (if negb (IsPresent (Platforms cfg) GOOS)
          && String.eqb (Image (ContainerCfg cfg)) ""
       then
         (Returned
            (mkExecutable tc (Env t) (Some cfg),
             Some (ErrorString ("platform " +:+ GOOS +:+
                                " not supported by transformer " +:+ Name tc))),
          mkState w1 logged)
       else
         (Returned (mkExecutable tc r.1.1 (Some cfg), r.1.2),
          mkState r.2
            (logged ++
             match r.1.2 with
             | Some _ => [ Log ErrorLevel "Unable to create Exec environment : %s" ]
             | None => []
             end)))).
  { subst logged r. unfold Init.
    rewrite Hload. cbn [fst snd]. rewrite Hqa. unfold_monad. cbn.
    rewrite Hstart. cbn.
    destruct (negb (IsPresent (Platforms cfg) GOOS)
              && String.eqb (Image (ContainerCfg cfg)) ""); cbn.
    - by rewrite <- !app_assoc.
    - destruct (NewEnvironment (EnvInfoOf e) None (ContainerCfg cfg) w1)
        as [[newenv [err'|]] w2]; cbn; by rewrite <- !app_assoc. }
  split; [exact Hrun|].
  intros Hplatform Hcreated. rewrite Hrun.
  assert (Hcheck : negb (IsPresent (Platforms cfg) GOOS)
                   && String.eqb (Image (ContainerCfg cfg)) "" = false).
  { destruct Hplatform as [-> | Hne]; [done|].
    apply String.eqb_neq in Hne. rewrite Hne. apply andb_false_r. }
  rewrite Hcheck, Hcreated. by rewrite app_nil_r.
Qed.

(** ** [Transform] without a transform command *)

Lemma templateMappings_spec (env : Environment) (a : Artifact) (rel : string) :
  relativeTo env a = Some rel →
  templateMappings env a rel = fallbackMappings env a.
Proof.
  intros Hrel. unfold templateMappings, fallbackMappings. rewrite Hrel.
  by destruct (Configs a).
Qed.

Section template_fallback.
Variables (t : Executable) (cfg : ExecutableYamlConfig) (env : Environment).
Hypothesis Hcfg : ExecConfig t = Some cfg.
Hypothesis Hcmd : TransformCMD cfg = None.
Hypothesis Henv : Env t = Some env.

Lemma transformArtifact_in_range (a : Artifact)
    (acc : slice PathMapping * slice Artifact) (s : State) :
  elems (serviceDirs a) ≠ [] →
  transformArtifact t acc a s
  = (Returned (match relativeTo env a with
               | Some _ => (append acc.1 (fallbackMappings env a), acc.2)
               | None => acc
               end),
     mkState (world s) (trace s ++ fallbackLog env a)).
Proof.
  intros Hdirs. unfold transformArtifact. rewrite Hcfg. unfold_monad. step.
  rewrite Hcmd, Henv. step. unfold index0.
  pose proof (templateMappings_spec env a) as Htpl.
  unfold fallbackLog. unfold relativeTo in *.
  destruct (elems (serviceDirs a)) as [|p ps]; [done|]. step.
  destruct (Rel (GetEnvironmentSource env) p) as [rel [err|]]; step.
  - done.
  - rewrite (Htpl rel eq_refl), app_nil_r. by destruct s.
Qed.

Lemma transformArtifact_fallback (a : Artifact) (pm : list PathMapping)
    (ca : slice Artifact) (s : State) :
  elems (serviceDirs a) ≠ [] →
  transformArtifact t (Some pm, ca) a s
  = (Returned (Some (pm ++ fallbackMappings env a), ca),
     mkState (world s) (trace s ++ fallbackLog env a)).
Proof.
  intros Hdirs. rewrite transformArtifact_in_range by done.
  unfold fallbackMappings.
  destruct (relativeTo env a); [done|]. by rewrite app_nil_r.
Qed.

Lemma transformArtifact_out_of_range (a : Artifact)
    (acc : slice PathMapping * slice Artifact) (s : State) :
  elems (serviceDirs a) = [] →
  transformArtifact t acc a s = (Panicked index_out_of_range, s).
Proof.
  intros Hdirs. unfold transformArtifact. rewrite Hcfg. unfold_monad. step.
  rewrite Hcmd, Henv. step. unfold index0. by rewrite Hdirs.
Qed.

Lemma forM_fallback (arts : list Artifact) (pm : list PathMapping)
    (ca : slice Artifact) (s : State) :
  Forall (λ a, elems (serviceDirs a) ≠ []) arts →
  forM (transformArtifact t) (Some pm, ca) arts s
  = (Returned (Some (pm ++ flat_map (fallbackMappings env) arts), ca),
     mkState (world s) (trace s ++ flat_map (fallbackLog env) arts)).
Proof.
  intros Hall. revert pm s.
  induction Hall as [|a arts Ha Hall IH]; intros pm s; cbn [forM flat_map].
  - unfold_monad. rewrite !app_nil_r. by destruct s.
  - unfold mbind, M_bind. rewrite transformArtifact_fallback by done.
    rewrite IH. cbn [world trace]. by rewrite <- !app_assoc.
Qed.

Lemma forM_out_of_range (arts : list Artifact)
    (acc : slice PathMapping * slice Artifact) (s : State) :
  Exists (λ a, elems (serviceDirs a) = []) arts →
  ∃ s', forM (transformArtifact t) acc arts s = (Panicked index_out_of_range, s').
Proof.
  intros Hex. revert acc s.
  induction Hex as [a arts Ha | a arts Hex IH]; intros acc s; cbn [forM].
  - unfold mbind, M_bind. rewrite transformArtifact_out_of_range by done. eauto.
  - unfold mbind, M_bind.
    destruct (decide (elems (serviceDirs a) = [])) as [Ha|Ha].
    + rewrite transformArtifact_out_of_range by done. eauto.
    + rewrite transformArtifact_in_range by done. apply IH.
Qed.

End template_fallback.

Lemma length_fallbackMappings (env : Environment) (arts : list Artifact) :
  length (flat_map (fallbackMappings env) arts)
  = (2 * length (filter (λ a, is_Some (relativeTo env a)) arts))%nat.
Proof.
  induction arts as [|a arts IH]; [done|].
  cbn [flat_map]. rewrite length_app, IH, filter_cons.
  unfold fallbackMappings at 1.
  destruct (relativeTo env a) as [rel|].
  - rewrite decide_True by done. cbn [length]. lia.
  - rewrite decide_False by (by intros [? ?]). done.
Qed.

(** C3. With no transform command, [Transform] on artifacts that each have
    a service directory returns, for every artifact in turn, the template
    mapping followed by the source mapping if the directory can be made
    relative to the source root and nothing (but a log line) if it cannot;
    no artifact is created, no command is run and the error is nil.  So
    there are twice as many mappings as artifacts whose directory can be
    made relative: [2n] for [n] artifacts when all of them can. *)
Theorem Transform_template_fallback
    (t : Executable) (cfg : ExecutableYamlConfig) (env : Environment)
    (newArtifacts alreadySeenArtifacts : slice Artifact) (s : State) :
  ExecConfig t = Some cfg →
  TransformCMD cfg = None →
  Env t = Some env →
  Forall (λ a, elems (serviceDirs a) ≠ []) (elems newArtifacts) →
  ∃ pathMappings : list PathMapping,
    Transform t newArtifacts alreadySeenArtifacts s
    = (Returned (Some pathMappings, Some [], None),
       mkState (world s)
         (trace s ++ flat_map (fallbackLog env) (elems newArtifacts))) ∧
    pathMappings = flat_map (fallbackMappings env) (elems newArtifacts) ∧
    length pathMappings
    = (2 * length (filter (λ a, is_Some (relativeTo env a)) (elems newArtifacts)))%nat ∧
    (Forall (λ a, is_Some (relativeTo env a)) (elems newArtifacts) →
     length pathMappings = (2 * length (elems newArtifacts))%nat).
Proof.
  intros Hcfg Hcmd Henv Hdirs.
  exists (flat_map (fallbackMappings env) (elems newArtifacts)).
  split; [|split; [done|split]].
  - unfold Transform. unfold mbind, M_bind.
    by rewrite (forM_fallback t cfg env Hcfg Hcmd Henv).
  - apply length_fallbackMappings.
  - intros Hall. rewrite length_fallbackMappings.
    f_equal. f_equal. clear Hdirs.
    induction Hall as [|a arts Ha Hall IH]; [done|].
    rewrite filter_cons, decide_True by done. by rewrite IH.
Qed.

(** ** [Transform] with a transform command *)

Lemma primaryPath_nil (a : Artifact) (s : State) :
  serviceDirs a = None → primaryPath a s = (Returned "", s).
Proof. intros Hnil. unfold primaryPath. rewrite Hnil. by destruct (Paths a). Qed.

(** What the body of the loop does with an artifact once the path for the
    command is there. *)
Lemma transformArtifact_command
    (t : Executable) (cfg : ExecutableYamlConfig) (cmd : list string)
    (env : Environment) (a : Artifact) (acc : slice PathMapping * slice Artifact)
    (s : State) (path : string) (r : ExecResult) (w' : World) :
  ExecConfig t = Some cfg →
  TransformCMD cfg = Some cmd →
  Env t = Some env →
  primaryPath a s = (Returned path, s) →
  Exec env (cmd ++ [path]) (world s) = (r, w') →
  transformArtifact t acc a s
  = match exec_err r with
    | Some err =>
        (Returned acc,
         mkState w'
           (trace s ++
            [ if isEnvironmentNotActive err then Log DebugLevel "%s"
              else Log ErrorLevel "Transform failed %s : %s : %d : %s" ]))
    | None =>
        if (exitcode r =? 0)%Z then
          let d := Unmarshal decodeTransformOutput (TrimSpace (stdout r))
                     zeroTransformOutput in
          (Returned (append acc.1 (elems (PathMappings d.1)),
                     append acc.2 (elems (CreatedArtifacts d.1))),
           mkState w'
             (trace s ++
              [ Log DebugLevel "%s Transform succeeded in %s : %s, %s, %d" ] ++
              match d.2 with
              | Some _ => [ Log ErrorLevel "Error in unmarshalling json %s: %s." ]
              | None => []
              end))
        else
          (Returned acc,
           mkState w'
             (trace s ++
              [ Log DebugLevel "Transform did not succeed %s : %s : %d : %s" ]))
    end.
Proof.
  intros Hcfg Hcmd Henv Hpath Hexec.
  unfold transformArtifact. rewrite Hcfg. unfold_monad. step.
  rewrite Hcmd, Hpath, Henv. step. rewrite Hexec. step.
  destruct (exec_err r) as [err|].
  - by destruct (isEnvironmentNotActive err).
  - destruct (exitcode r =? 0)%Z; step; [|done].
    destruct (Unmarshal decodeTransformOutput (TrimSpace (stdout r))
                zeroTransformOutput) as [out [e|]]; step.
    + by rewrite <- app_assoc.
    + done.
Qed.

(** A command that runs and exits with a code other than 0 leaves the
    path mappings and the created artifacts as they were. *)
Lemma transformArtifact_bad_exit
    (t : Executable) (cfg : ExecutableYamlConfig) (cmd : list string)
    (env : Environment) (a : Artifact) (acc : slice PathMapping * slice Artifact)
    (s : State) (path : string) (r : ExecResult) (w' : World) :
  ExecConfig t = Some cfg →
  TransformCMD cfg = Some cmd →
  Env t = Some env →
  primaryPath a s = (Returned path, s) →
  Exec env (cmd ++ [path]) (world s) = (r, w') →
  exec_err r = None →
  exitcode r ≠ 0%Z →
  transformArtifact t acc a s
  = (Returned acc,
     mkState w'
       (trace s ++ [ Log DebugLevel "Transform did not succeed %s : %s : %d : %s" ])).
Proof.
  intros Hcfg Hcmd Henv Hpath Hexec Herr Hexit.
  rewrite (transformArtifact_command t cfg cmd env a acc s path r w') by done.
  apply Z.eqb_neq in Hexit. by rewrite Herr, Hexit.
Qed.

(** Output that is not JSON at all leaves them as they were, too. *)
Lemma transformArtifact_not_json
    (t : Executable) (cfg : ExecutableYamlConfig) (cmd : list string)
    (env : Environment) (a : Artifact) (pm : list PathMapping) (ca : list Artifact)
    (s : State) (path : string) (r : ExecResult) (w' : World) :
  ExecConfig t = Some cfg →
  TransformCMD cfg = Some cmd →
  Env t = Some env →
  primaryPath a s = (Returned path, s) →
  Exec env (cmd ++ [path]) (world s) = (r, w') →
  exec_err r = None →
  exitcode r = 0%Z →
  scan (TrimSpace (stdout r)) = None →
  ∃ s', transformArtifact t (Some pm, Some ca) a s = (Returned (Some pm, Some ca), s').
Proof.
  intros Hcfg Hcmd Henv Hpath Hexec Herr Hexit Hscan.
  rewrite (transformArtifact_command t cfg cmd env a _ s path r w') by done.
  rewrite Herr, Hexit. unfold Unmarshal. rewrite Hscan. cbn.
  rewrite !app_nil_r. eauto.
Qed.

(** Whenever [Transform] returns, the error it returns is nil. *)
Lemma Transform_error_nil
    (t : Executable) (newArtifacts alreadySeenArtifacts : slice Artifact)
    (s s' : State) (r : slice PathMapping * slice Artifact * option error) :
  Transform t newArtifacts alreadySeenArtifacts s = (Returned r, s') →
  r.2 = None.
Proof.
  unfold Transform. unfold mbind, M_bind.
  destruct (forM (transformArtifact t) (Some [], Some []) (elems newArtifacts) s)
    as [[acc|msg|code] s1]; cbn; intros Heq; by inversion Heq.
Qed.

(** ** The index into the service directories *)

(** C9, as amended.  With no transform command, the body of the loop of
    [Transform] panics with an index out of range on every artifact without
    a first service directory (a nil [Paths] among them), so [Transform]
    returns exactly when every artifact has one.  With a transform command,
    the guard keeps the index away from an artifact whose [Paths] is nil or
    has no list of service directories, and the command runs with the path
    [""]; a list that is there but empty passes the guard, and the body
    panics with the same index out of range, before the command is run. *)
Theorem Transform_serviceDir_index
    (t : Executable) (cfg : ExecutableYamlConfig) (env : Environment) :
  ExecConfig t = Some cfg →
  Env t = Some env →
  (TransformCMD cfg = None →
     (∀ a, Paths a = None → elems (serviceDirs a) = []) ∧
     (∀ a acc s, elems (serviceDirs a) = [] →
        transformArtifact t acc a s = (Panicked index_out_of_range, s)) ∧
     (∀ arts seen s,
        Exists (λ a, elems (serviceDirs a) = []) (elems arts) →
        ∃ s', Transform t arts seen s = (Panicked index_out_of_range, s')) ∧
     (∀ arts seen s,
        (∃ r s', Transform t arts seen s = (Returned r, s')) ↔
        Forall (λ a, elems (serviceDirs a) ≠ []) (elems arts))) ∧
  (∀ cmd, TransformCMD cfg = Some cmd →
     (∀ a acc s, Paths a = None ∨ serviceDirs a = None →
        ∃ acc' s',
          transformArtifact t acc a s = (Returned acc', s') ∧
          world s' = (Exec env (cmd ++ [""]) (world s)).2) ∧
     (∀ a acc s, serviceDirs a = Some [] →
        Paths a ≠ None ∧
        transformArtifact t acc a s = (Panicked index_out_of_range, s))).
Proof.
  intros Hcfg Henv. split.
  - intros Hcmd.
    assert (Hpanic : ∀ arts seen s,
              Exists (λ a, elems (serviceDirs a) = []) (elems arts) →
              ∃ s', Transform t arts seen s = (Panicked index_out_of_range, s')).
    { intros arts seen s Hex. unfold Transform. unfold mbind, M_bind.
      destruct (forM_out_of_range t cfg env Hcfg Hcmd Henv _ (Some [], Some []) s Hex)
        as [s' ->]. eauto. }
    split; [|split; [|split]].
    + intros a Hnil. unfold serviceDirs. by rewrite Hnil.
    + intros a acc s. by apply (transformArtifact_out_of_range t cfg env).
    + exact Hpanic.
    + intros arts seen s. split.
      * intros (r & s' & Hret).
        destruct (decide (Forall (λ a, elems (serviceDirs a) ≠ []) (elems arts)))
          as [Hall|Hnot]; [done|].
        apply not_Forall_Exists in Hnot; [|apply _].
        destruct (Hpanic arts seen s) as [s'' Hp]; [|congruence].
        eapply Exists_impl; [|exact Hnot]. cbn. intros a Ha.
        destruct (elems (serviceDirs a)); [done|]. exfalso. by apply Ha.
      * intros Hall. unfold Transform. unfold mbind, M_bind.
        rewrite (forM_fallback t cfg env Hcfg Hcmd Henv) by done. cbn. eauto.
  - intros cmd Hcmd. split.
    + intros a acc s Hnil.
      assert (Hdirs : serviceDirs a = None).
      { destruct Hnil as [Hnil|]; [|done]. unfold serviceDirs. by rewrite Hnil. }
      destruct (Exec env (cmd ++ [""]) (world s)) as [r w'] eqn:Hexec.
      rewrite (transformArtifact_command t cfg cmd env a acc s "" r w')
        by auto using primaryPath_nil.
      destruct (exec_err r); [eauto|].
      destruct (exitcode r =? 0)%Z; cbn; eauto.
    + intros a acc s Hdirs.
      assert (Hpaths : Paths a ≠ None).
      { intros Hnil. unfold serviceDirs in Hdirs. by rewrite Hnil in Hdirs. }
      split; [exact Hpaths|].
      unfold transformArtifact. rewrite Hcfg. unfold_monad. step. rewrite Hcmd.
      unfold primaryPath, index0. rewrite Hdirs.
      by destruct (Paths a).
Qed.

End external_properties.

(** * Properties of package [container] *)

Section container_properties.
Context `{Collaborators}.
Import container.

Lemma GetContainerEngine_inited (s : State) :
  inited s = true → GetContainerEngine s = (Returned (workingEngine s), s).
Proof. intros Hinit. unfold GetContainerEngine. unfold_state. by rewrite Hinit. Qed.

Lemma run_inited (rs : list Request) (s : State) :
  inited s = true → run rs s = (Returned (map (cached s) rs), s).
Proof.
  intros Hinit. induction rs as [|r rs IH]; [done|].
  cbn [run map]. unfold mbind, M_bind at 1.
  assert (Hserve : serve r s = (Returned (cached s r), s)).
  { destruct r; cbn [serve cached].
    - unfold fmap, M_fmap, mbind, M_bind. by rewrite GetContainerEngine_inited.
    - done. }
  rewrite Hserve. unfold mbind, M_bind at 1. by rewrite IH.
Qed.

(** C8. A process whose first request to the package is
    [GetContainerEngine], followed by any requests [rs]:

    - the operator is asked once, by that first call;
    - if the operator declines, no engine is looked for, the first call and
      every later one return nil and [IsDisabled] returns true;
    - if the operator agrees and docker cannot be used (an error, or no
      engine), the first call ends the process with a fatal log entry;
    - if the operator agrees and docker gives an engine, it is looked for
      once, and the first call and every later one return that engine;
    - the later requests leave the package's variables, the world and the
      trace of calls as the first call left them. *)
Theorem GetContainerEngine_once (w : World) (rs : list Request) :
  let a := FetchBoolAnswer w in
  let d := newDockerEngine a.2 in
  let asked := [ Call "qaengine.FetchBoolAnswer" ] in
  let looked := [ Call "qaengine.FetchBoolAnswer"; Call "newDockerEngine" ] in
  match a.1, d.1 with
  | false, _ =>
      let s1 := mkState true true None a.2 asked in
      run (ReqGetContainerEngine :: rs) (start w)
      = (Returned (RepEngine None :: map (cached s1) rs), s1) ∧
      (∀ r, cached s1 r = match r with
                          | ReqGetContainerEngine => RepEngine None
                          | ReqIsDisabled => RepDisabled true
                          end) ∧
      calls "qaengine.FetchBoolAnswer" (trace s1) = 1%nat ∧
      calls "newDockerEngine" (trace s1) = 0%nat
  | true, (Some e, None) =>
      let s1 := mkState true false (Some e) d.2 looked in
      run (ReqGetContainerEngine :: rs) (start w)
      = (Returned (RepEngine (Some e) :: map (cached s1) rs), s1) ∧
      (∀ r, cached s1 r = match r with
                          | ReqGetContainerEngine => RepEngine (Some e)
                          | ReqIsDisabled => RepDisabled false
                          end) ∧
      calls "qaengine.FetchBoolAnswer" (trace s1) = 1%nat ∧
      calls "newDockerEngine" (trace s1) = 1%nat
  | true, (e, _) =>
      run (ReqGetContainerEngine :: rs) (start w)
      = (Exited 1%Z,
         mkState false false e d.2
           (looked ++
            [ Log FatalLevel "failed to initialize the container engine. Error: %q" ]))
  end.
Proof.
  intros a d asked looked. subst a d asked looked.
  cbn [run]. unfold mbind, M_bind at 1. cbn [serve].
  unfold fmap, M_fmap, mbind, M_bind at 1.
  unfold GetContainerEngine, initContainerEngine. unfold_state. cbn.
  destruct (FetchBoolAnswer w) as [[|] w1]; cbn.
  - destruct (newDockerEngine w1) as [[[e|] [err|]] w2]; cbn; try done.
    rewrite run_inited by done. cbn. split; [done|]. split; [|done].
    by intros [|].
  - rewrite run_inited by done. cbn. split; [done|]. split; [|done].
    by intros [|].
Qed.

End container_properties.

(** * More of package [external] *)

Section detect_behaviour.
Context `{Collaborators}.
Import external.

(** ** [executeDetect] after a command that exited 0 *)

(** The whole of [executeDetect] once the command has run and exited 0: the
    full shape if it decodes, else the single artifact around whatever the
    loose decoding left. *)
Lemma executeDetect_exit0
    (t : Executable) (cmd : list string) (env : Environment) (dir : string)
    (s : State) (r : ExecResult) (w' : World) :
  Env t = Some env →
  Exec env (cmd ++ [dir]) (world s) = (r, w') →
  exec_err r = None →
  exitcode r = 0%Z →
  executeDetect t cmd dir s
  = let out := TrimSpace (stdout r) in
    let d := Unmarshal decodeServices out None in
    match d.2 with
    | None =>
        (Returned (d.1, None),
         mkState w'
           (trace s ++ [ Log DebugLevel "%s Detect succeeded in %s : %s, %s, %d" ]))
    | Some _ =>
        let c := if String.eqb out "" then (None, None)
                 else Unmarshal decodeConfig out (Some ∅) in
        (Returned
           (Some {[ "" := Some [ mkArtifact
                                   (Some {[ ServiceDirPathType := Some [dir] ]})
                                   (Some {[ TemplateConfigType
                                            := from_option GMap GNilMap c.1 ]}) ] ]},
            None),
         mkState w'
           (trace s ++
            [ Log DebugLevel "%s Detect succeeded in %s : %s, %s, %d";
              Log DebugLevel
                "Error in unmarshalling output json to full detect output %s: %s." ] ++
            match c.2 with
            | Some _ => [ Log DebugLevel "Error in unmarshalling json %s: %s." ]
            | None => []
            end))
    end.
Proof.
  intros Henv Hexec Herr Hexit.
  unfold executeDetect. rewrite Henv. unfold_monad. step. rewrite Hexec. step.
  rewrite Herr, Hexit. step.
  destruct (Unmarshal decodeServices (TrimSpace (stdout r)) None) as [out [e|]];
    step; [|done].
  destruct (String.eqb (TrimSpace (stdout r)) ""); step.
  - by rewrite <- !app_assoc.
  - destruct (Unmarshal decodeConfig (TrimSpace (stdout r)) (Some ∅)) as [c [e'|]];
      step; by rewrite <- !app_assoc.
Qed.

(** A value that is neither an object nor [null] decodes into neither of
    the two maps; both targets are left as they were. *)
Lemma decodeMap_wrong_kind {V} (ty : string) (zero : V) (dec : decoder V)
    (j : json) (cur : gomap V) :
  (∀ members, j ≠ JObj members) → j ≠ JNull →
  decodeMap ty zero dec j cur = (cur, Some (UnmarshalTypeError (json_kind j) ty)).
Proof. intros Hobj Hnull. destruct j; try done. by destruct (Hobj members). Qed.

Lemma withDefaultPaths_has_paths (dir : string) (nst : Artifact) :
  maplen (Paths (withDefaultPaths dir nst)) ≠ 0%nat.
Proof.
  destruct (decide (maplen (Paths nst) = 0%nat)) as [Hlen|Hlen].
  - rewrite withDefaultPaths_empty by done. cbn. by rewrite map_size_singleton.
  - by rewrite withDefaultPaths_nonempty.
Qed.

Lemma defaultServices_has_paths (dir : string) (out : gomap (slice Artifact))
    (services : gmap string (slice Artifact)) (sn : string)
    (ns : slice Artifact) (nst : Artifact) :
  defaultServices dir out = Some services →
  services !! sn = Some ns →
  nst ∈ elems ns →
  maplen (Paths nst) ≠ 0%nat.
Proof.
  destruct out as [m|]; [|done]. rewrite defaultServices_fmap.
  intros [= <-]. rewrite lookup_fmap.
  destruct (m !! sn) as [[l|]|]; cbn; intros [= <-]; cbn.
  - intros (a & -> & _)%list_elem_of_fmap. apply withDefaultPaths_has_paths.
  - by intros ?%elem_of_nil.
Qed.

Lemma defaultServices_id (dir : string) (m : gmap string (slice Artifact)) :
  (∀ sn ns nst, m !! sn = Some ns → nst ∈ elems ns → maplen (Paths nst) ≠ 0%nat) →
  defaultServices dir (Some m) = Some m.
Proof.
  intros Hpaths. rewrite defaultServices_fmap. f_equal.
  apply map_eq. intros sn. rewrite lookup_fmap.
  destruct (m !! sn) as [[l|]|] eqn:Hsn; cbn; [|done|done].
  do 2 f_equal. rewrite <- (list_fmap_id l) at 2.
  apply list_fmap_ext. intros i a Hi.
  apply withDefaultPaths_nonempty, (Hpaths sn (Some l)); [done|].
  cbn. by apply list_elem_of_lookup_2 in Hi.
Qed.

(** ** [DirectoryDetect] as a whole *)

(** X1. On an initialised transformer [DirectoryDetect] always returns: it
    neither panics nor ends the process.  Without a detect command it
    returns nil and nil and leaves the world and the log alone; with one it
    runs exactly that command with [dir] appended, once, and only adds to
    the log. *)
Theorem DirectoryDetect_runs_command_once
    (t : Executable) (cfg : ExecutableYamlConfig) (env : Environment)
    (dir : string) (s : State) :
  ExecConfig t = Some cfg →
  Env t = Some env →
  ∃ services err s',
    DirectoryDetect t dir s = (Returned (services, err), s') ∧
    (∃ logs, trace s' = trace s ++ logs) ∧
    match DirectoryDetectCMD cfg with
    | None => services = None ∧ err = None ∧ s' = s
    | Some cmd => world s' = (Exec env (cmd ++ [dir]) (world s)).2
    end.
Proof.
  intros Hcfg Henv. unfold DirectoryDetect. rewrite Hcfg. unfold_monad. step.
  destruct (DirectoryDetectCMD cfg) as [cmd|]; step.
  - destruct (Exec env (cmd ++ [dir]) (world s)) as [r w'] eqn:Hexec.
    destruct (exec_err r) as [e|] eqn:Herr.
    + unfold executeDetect. rewrite Henv. unfold_monad. step.
      rewrite Hexec. step. rewrite Herr.
      destruct (isEnvironmentNotActive e); step; eauto 10.
    + destruct (exitcode r =? 0)%Z eqn:Hexit.
      * apply Z.eqb_eq in Hexit.
        rewrite (executeDetect_exit0 t cmd env dir s r w') by done. cbn zeta.
        destruct (Unmarshal decodeServices (TrimSpace (stdout r)) None)
          as [out [e|]]; step; eauto 10.
      * unfold executeDetect. rewrite Henv. unfold_monad. step.
        rewrite Hexec. step. rewrite Herr, Hexit. step. eauto 10.
  - do 3 eexists. split; [done|]. split; [|done]. exists []. by rewrite app_nil_r.
Qed.

(** X2. A detect command that exits 0 and prints nothing (or white space
    only) is taken as a detection: [DirectoryDetect] returns the single
    unnamed service with one artifact for [dir], whose [TemplateConfig]
    config is a nil map. *)
Theorem DirectoryDetect_blank_output
    (t : Executable) (cfg : ExecutableYamlConfig) (cmd : list string)
    (env : Environment) (dir : string) (s : State) (r : ExecResult) (w' : World) :
  ExecConfig t = Some cfg →
  DirectoryDetectCMD cfg = Some cmd →
  Env t = Some env →
  Exec env (cmd ++ [dir]) (world s) = (r, w') →
  exec_err r = None →
  exitcode r = 0%Z →
  TrimSpace (stdout r) = "" →
  scan "" = None →
  DirectoryDetect t dir s
  = (Returned
       (Some {[ "" := Some [ mkArtifact
                               (Some {[ ServiceDirPathType := Some [dir] ]})
                               (Some {[ TemplateConfigType := GNilMap ]}) ] ]},
        None),
     mkState w'
       (trace s ++
        [ Log DebugLevel "%s Detect succeeded in %s : %s, %s, %d";
          Log DebugLevel
            "Error in unmarshalling output json to full detect output %s: %s." ])).
Proof.
  intros Hcfg Hcmd Henv Hexec Herr Hexit Hblank Hempty.
  unfold DirectoryDetect. rewrite Hcfg. unfold_monad. step. rewrite Hcmd.
  rewrite (executeDetect_exit0 t cmd env dir s r w') by done. cbn zeta.
  rewrite Hblank. unfold Unmarshal at 1. rewrite Hempty. step.
  rewrite defaultServices_singleton; [done|].
  cbn [Paths maplen from_option]. by rewrite map_size_singleton.
Qed.

(** X3. A detect command that exits 0 and prints something that is not
    JSON, or JSON that is an array, a string, a number or a boolean, is
    taken as a detection too: the single artifact for [dir] carries an empty
    configuration. *)
Theorem DirectoryDetect_not_an_object
    (t : Executable) (cfg : ExecutableYamlConfig) (cmd : list string)
    (env : Environment) (dir : string) (s : State) (r : ExecResult) (w' : World) :
  ExecConfig t = Some cfg →
  DirectoryDetectCMD cfg = Some cmd →
  Env t = Some env →
  Exec env (cmd ++ [dir]) (world s) = (r, w') →
  exec_err r = None →
  exitcode r = 0%Z →
  TrimSpace (stdout r) ≠ "" →
  match scan (TrimSpace (stdout r)) with
  | None => True
  | Some j => (∀ members, j ≠ JObj members) ∧ j ≠ JNull
  end →
  DirectoryDetect t dir s
  = (Returned
       (Some {[ "" := Some [ mkArtifact
                               (Some {[ ServiceDirPathType := Some [dir] ]})
                               (Some {[ TemplateConfigType := GMap ∅ ]}) ] ]},
        None),
     mkState w'
       (trace s ++
        [ Log DebugLevel "%s Detect succeeded in %s : %s, %s, %d";
          Log DebugLevel
            "Error in unmarshalling output json to full detect output %s: %s.";
          Log DebugLevel "Error in unmarshalling json %s: %s." ])).
Proof.
  intros Hcfg Hcmd Henv Hexec Herr Hexit Hne Hkind.
  apply String.eqb_neq in Hne.
  unfold DirectoryDetect. rewrite Hcfg. unfold_monad. step. rewrite Hcmd.
  rewrite (executeDetect_exit0 t cmd env dir s r w') by done. cbn zeta.
  rewrite Hne. unfold Unmarshal.
  destruct (scan (TrimSpace (stdout r))) as [j|].
  - destruct Hkind as [Hobj Hnull]. unfold decodeServices, decodeConfig.
    rewrite !decodeMap_wrong_kind by done. step.
    rewrite defaultServices_singleton; [done|].
    cbn [Paths maplen from_option]. by rewrite map_size_singleton.
  - step. rewrite defaultServices_singleton; [done|].
    cbn [Paths maplen from_option]. by rewrite map_size_singleton.
Qed.

(** X4. Whatever the detect command prints, no artifact that
    [DirectoryDetect] returns has an empty path mapping. *)
Theorem DirectoryDetect_result_has_paths
    (t : Executable) (dir : string) (s s' : State)
    (services : gmap string (slice Artifact)) (err : option error)
    (sn : string) (ns : slice Artifact) (nst : Artifact) :
  DirectoryDetect t dir s = (Returned (Some services, err), s') →
  services !! sn = Some ns →
  nst ∈ elems ns →
  maplen (Paths nst) ≠ 0%nat.
Proof.
  unfold DirectoryDetect. unfold_monad.
  destruct (ExecConfig t) as [cfg|]; step; [|done].
  destruct (DirectoryDetectCMD cfg) as [cmd|]; step; [|done].
  destruct (executeDetect t cmd dir s) as [[[out e]|msg|code] s1] eqn:Hdetect;
    step; [|done|done].
  destruct e as [e|]; step.
  - (* an error comes with a nil result *)
    intros [= -> <- <-]. revert Hdetect. unfold executeDetect. unfold_monad.
    destruct (Env t) as [env|]; step; [|done].
    destruct (Exec env (cmd ++ [dir]) (world s)) as [r w']. step.
    destruct (exec_err r) as [e'|].
    + destruct (isEnvironmentNotActive e'); step; congruence.
    + destruct (exitcode r =? 0)%Z; step; [|congruence].
      destruct (Unmarshal decodeServices (TrimSpace (stdout r)) None)
        as [out' [e'|]]; step; [|congruence].
      destruct (String.eqb (TrimSpace (stdout r)) ""); step; [congruence|].
      destruct (Unmarshal decodeConfig (TrimSpace (stdout r)) (Some ∅))
        as [c [e''|]]; step; congruence.
  - intros [= Hout <- <-]. eauto using defaultServices_has_paths.
Qed.

(** X5. Output in the full shape in which every artifact names a path is
    returned as the command printed it: [DirectoryDetect] changes nothing in
    it (and output that is the JSON [null] gives a nil result). *)
Theorem DirectoryDetect_keeps_explicit_paths
    (t : Executable) (cfg : ExecutableYamlConfig) (cmd : list string)
    (env : Environment) (dir : string) (s : State) (r : ExecResult) (w' : World)
    (out : gomap (slice Artifact)) :
  ExecConfig t = Some cfg →
  DirectoryDetectCMD cfg = Some cmd →
  Env t = Some env →
  Exec env (cmd ++ [dir]) (world s) = (r, w') →
  exec_err r = None →
  exitcode r = 0%Z →
  Unmarshal decodeServices (TrimSpace (stdout r)) None = (out, None) →
  (∀ m sn ns nst, out = Some m → m !! sn = Some ns → nst ∈ elems ns →
     maplen (Paths nst) ≠ 0%nat) →
  DirectoryDetect t dir s
  = (Returned (out, None),
     mkState w'
       (trace s ++ [ Log DebugLevel "%s Detect succeeded in %s : %s, %s, %d" ])).
Proof.
  intros Hcfg Hcmd Henv Hexec Herr Hexit Hdec Hpaths.
  unfold DirectoryDetect. rewrite Hcfg. unfold_monad. step. rewrite Hcmd.
  rewrite (executeDetect_exit0 t cmd env dir s r w') by done. cbn zeta.
  rewrite Hdec. step. destruct out as [m|]; [|done].
  rewrite defaultServices_id; [done|]. eauto.
Qed.

End detect_behaviour.

Section transform_behaviour.
Context `{Collaborators}.
Import external.

(** ** How the results of [Transform] accumulate *)

(** The body of the loop does not look at what has been gathered so far: it
    only appends to it. *)
Lemma transformArtifact_shift
    (t : Executable) (pm : list PathMapping) (ca : list Artifact)
    (a : Artifact) (s : State) :
  transformArtifact t (Some pm, Some ca) a s
  = match transformArtifact t (Some [], Some []) a s with
    | (Returned acc, s') =>
        (Returned (Some (pm ++ elems acc.1), Some (ca ++ elems acc.2)), s')
    | (Panicked msg, s') => (Panicked msg, s')
    | (Exited code, s') => (Exited code, s')
    end.
Proof.
  unfold transformArtifact, primaryPath, index0. unfold_monad.
  destruct (ExecConfig t) as [cfg|]; step; [|done].
  destruct (TransformCMD cfg) as [cmd|]; step.
  - destruct (Paths a) as [paths|]; [destruct (serviceDirs a) as [[|p ps]|]|];
      step; try done;
      (destruct (Env t) as [env|]; step; [|done];
       match goal with
       | |- context [Exec env ?line (world s)] =>
           destruct (Exec env line (world s)) as [r w']
       end; step;
       destruct (exec_err r) as [e|];
         [destruct (isEnvironmentNotActive e); step; by rewrite !app_nil_r|];
       destruct (exitcode r =? 0)%Z; step; [|by rewrite !app_nil_r];
       destruct (Unmarshal decodeTransformOutput (TrimSpace (stdout r))
                   zeroTransformOutput) as [out [e|]]; step; done).
  - destruct (Env t) as [env|]; step; [|done].
    destruct (elems (serviceDirs a)) as [|p ps]; step; [done|].
    destruct (Rel (GetEnvironmentSource env) p) as [rel [e|]]; step;
      by rewrite !app_nil_r.
Qed.

Lemma forM_shift
    (t : Executable) (arts : list Artifact) (pm : list PathMapping)
    (ca : list Artifact) (s : State) :
  forM (transformArtifact t) (Some pm, Some ca) arts s
  = match forM (transformArtifact t) (Some [], Some []) arts s with
    | (Returned acc, s') =>
        (Returned (Some (pm ++ elems acc.1), Some (ca ++ elems acc.2)), s')
    | (Panicked msg, s') => (Panicked msg, s')
    | (Exited code, s') => (Exited code, s')
    end.
Proof.
  revert pm ca s. induction arts as [|a arts IH]; intros pm ca s; cbn [forM].
  - unfold_monad. cbn. by rewrite !app_nil_r.
  - unfold mbind, M_bind.
    rewrite (transformArtifact_shift t pm ca).
    pose proof (transformArtifact_shift t [] [] a s) as Hsome.
    destruct (transformArtifact t (Some [], Some []) a s)
      as [[[pm1 ca1]|msg|code] s1]; [|done|done].
    cbn [fst snd app] in *. injection Hsome as Hpm Hca.
    destruct pm1 as [pm1|]; [|done]. destruct ca1 as [ca1|]; [|done].
    cbn [elems default].
    rewrite (IH (pm ++ pm1) (ca ++ ca1)), (IH pm1 ca1).
    destruct (forM (transformArtifact t) (Some [], Some []) arts s1)
      as [[[pm2 ca2]|msg|code] s2]; [|done|done].
    cbn [fst snd elems default id]. by rewrite <- !app_assoc.
Qed.

Lemma forM_app {S A B} (body : B → A → M S B) (b : B) (l1 l2 : list A) (s : S) :
  forM body b (l1 ++ l2) s
  = match forM body b l1 s with
    | (Returned b', s') => forM body b' l2 s'
    | (Panicked msg, s') => (Panicked msg, s')
    | (Exited code, s') => (Exited code, s')
    end.
Proof.
  revert b s. induction l1 as [|a l1 IH]; intros b s; cbn [app forM]; [done|].
  unfold mbind, M_bind. destruct (body b a s) as [[b'|msg|code] s']; [|done|done].
  apply IH.
Qed.

(** X6. [Transform] gathers its results in the order of its input and
    never drops or merges any: on [xs ++ ys] it returns what it returns on
    [xs] followed by what it returns on [ys] in the state that [xs] left,
    and it stops where either of them stops.  On no artifacts it returns two
    empty slices that are not nil, a nil error, and touches nothing, even on
    a transformer that was never initialised. *)
Theorem Transform_accumulates
    (t : Executable) (xs ys : list Artifact) (seen : slice Artifact) (s : State) :
  Transform t (Some (xs ++ ys)) seen s
  = match Transform t (Some xs) seen s with
    | (Returned (pm1, ca1, _), s1) =>
        match Transform t (Some ys) seen s1 with
        | (Returned (pm2, ca2, _), s2) =>
            (Returned (Some (elems pm1 ++ elems pm2),
                       Some (elems ca1 ++ elems ca2), None), s2)
        | (Panicked msg, s2) => (Panicked msg, s2)
        | (Exited code, s2) => (Exited code, s2)
        end
    | (Panicked msg, s1) => (Panicked msg, s1)
    | (Exited code, s1) => (Exited code, s1)
    end ∧
  Transform t None seen s = (Returned (Some [], Some [], None), s) ∧
  Transform t (Some []) seen s = (Returned (Some [], Some [], None), s).
Proof.
  split; [|done].
  unfold Transform. unfold mbind, M_bind. cbn [elems default from_option id].
  rewrite forM_app.
  pose proof (forM_shift t xs [] [] s) as Hsome.
  destruct (forM (transformArtifact t) (Some [], Some []) xs s)
    as [[[pm1 ca1]|msg|code] s1]; [|done|done].
  cbn [app fst snd] in Hsome. injection Hsome as Hpm Hca.
  destruct pm1 as [pm1|]; [|done]. destruct ca1 as [ca1|]; [|done].
  unfold mret, M_ret. cbn [fst snd elems default from_option id].
  rewrite forM_shift.
  pose proof (forM_shift t ys [] [] s1) as Hsome.
  destruct (forM (transformArtifact t) (Some [], Some []) ys s1)
    as [[[pm2 ca2]|msg|code] s2]; [|done|done].
  cbn [app fst snd] in Hsome. injection Hsome as Hpm' Hca'.
  destruct pm2 as [pm2|]; [|done]. by destruct ca2 as [ca2|].
Qed.

(** ** A transform command that never succeeds *)

Lemma primaryPath_safe (a : Artifact) (s : State) :
  serviceDirs a ≠ Some [] → ∃ path, primaryPath a s = (Returned path, s).
Proof.
  intros Hsafe. unfold primaryPath, index0.
  destruct (Paths a); [|by eexists].
  destruct (serviceDirs a) as [[|p ps]|]; [done| |]; by eexists.
Qed.

(** X7. If, in the worlds a property [I] holds of, the transform command
    always fails to execute or exits with a code other than 0, whatever path
    it is given, and [I] is kept by running it, then [Transform] from such a
    world returns no path mapping, no artifact and a nil error for any
    artifacts it can compute a path for, and logs one line for each. *)
Theorem Transform_failing_command
    (t : Executable) (cfg : ExecutableYamlConfig) (cmd : list string)
    (env : Environment) (I : World → Prop)
    (arts : list Artifact) (seen : slice Artifact) (s : State) :
  ExecConfig t = Some cfg →
  TransformCMD cfg = Some cmd →
  Env t = Some env →
  (∀ w path, I w →
     I (Exec env (cmd ++ [path]) w).2 ∧
     (exec_err (Exec env (cmd ++ [path]) w).1 ≠ None ∨
      exitcode (Exec env (cmd ++ [path]) w).1 ≠ 0%Z)) →
  I (world s) →
  Forall (λ a, serviceDirs a ≠ Some []) arts →
  ∃ s',
    Transform t (Some arts) seen s = (Returned (Some [], Some [], None), s') ∧
    I (world s') ∧
    length (trace s') = (length (trace s) + length arts)%nat.
Proof.
  intros Hcfg Hcmd Henv Hfail HI Hsafe.
  assert (Hloop : ∃ s',
    forM (transformArtifact t) (Some [], Some []) arts s
    = (Returned (Some [], Some []), s') ∧
    I (world s') ∧ length (trace s') = (length (trace s) + length arts)%nat).
  { revert s HI. induction Hsafe as [|a arts Ha Hsafe IH]; intros s HI; cbn [forM].
    - exists s. unfold_monad. split; [done|]. split; [done|]. cbn. lia.
    - destruct (primaryPath_safe a s Ha) as [path Hpath].
      destruct (Hfail (world s) path HI) as [HI' Hbad].
      destruct (Exec env (cmd ++ [path]) (world s)) as [r w'] eqn:Hexec.
      cbn [fst snd] in *. unfold mbind, M_bind.
      assert (Hskip : ∃ ev,
        transformArtifact t (Some [], Some []) a s
        = (Returned (Some [], Some []), mkState w' (trace s ++ [ev]))).
      { rewrite (transformArtifact_command t cfg cmd env a _ s path r w') by done.
        destruct (exec_err r) as [err|]; [by eexists|].
        destruct Hbad as [|Hexit]; [done|].
        apply Z.eqb_neq in Hexit. rewrite Hexit. by eexists. }
      destruct Hskip as [ev ->].
      destruct (IH (mkState w' (trace s ++ [ev])) HI') as (s' & Hrun & HI'' & Hlen).
      exists s'. split; [done|]. split; [done|].
      rewrite Hlen. cbn [trace length]. rewrite length_app. cbn. lia. }
  destruct Hloop as (s' & Hrun & HI' & Hlen).
  exists s'. split; [|done].
  unfold Transform. unfold mbind, M_bind. cbn [elems default from_option id].
  by rewrite Hrun.
Qed.

(** ** From a detected configuration to its templates *)


End transform_behaviour.

Section init_behaviour.
Context `{Collaborators}.
Import external.

(** ** The outcomes of [Init] *)

(** X9. [Init] with an environment to take the information from returns a
    nil error exactly when the configuration loads, the host's platform is
    listed or an image is given, and the environment can be created.  The
    receiver then holds the new configuration and the environment that was
    created, which [GetConfig] gives back; the address handed to
    [NewEnvironment] is the one the QA receiver returned, nil when QA is not
    asked for; and a receiver that failed to start leaves two log lines and
    nothing else. *)
Theorem Init_succeeds_iff
    (t : Executable) (tc : Transformer) (e : Environment) (s : State)
    (t' : Executable) (s' : State) :
  let d := GetObjFromInterface (SpecConfig tc) zeroExecutableYamlConfig in
  let q := if EnableQA d.1 then StartGRPCReceiver (world s)
           else ((None, None), world s) in
  let n := NewEnvironment (EnvInfoOf e) q.1.1 (ContainerCfg d.1) q.2 in
  Init t tc (Some e) s = (Returned (t', None), s') ↔
  d.2 = None ∧
  (IsPresent (Platforms d.1) GOOS = true ∨ Image (ContainerCfg d.1) ≠ "") ∧
  n.1.2 = None ∧
  t' = mkExecutable tc n.1.1 (Some d.1) ∧
  GetConfig t' = (tc, n.1.1) ∧
  s' = mkState n.2
         (trace s ++
          match q.1.2 with
          | Some _ =>
              [ Log ErrorLevel "Unable to start QA RPC Receiver engine : %s";
                Log InfoLevel "Starting transformer that requires QA without QA." ]
          | None => []
          end).
Proof.
  intros d q n. subst d q n. unfold Init.
  destruct (GetObjFromInterface (SpecConfig tc) zeroExecutableYamlConfig)
    as [cfg [err|]]; cbn [fst snd].
  { unfold_monad. cbn. split; [congruence|]. by intros [? _]. }
  assert (Hcheck : ∀ b,
    negb (IsPresent (Platforms cfg) GOOS) && String.eqb (Image (ContainerCfg cfg)) "" = b →
    (IsPresent (Platforms cfg) GOOS = true ∨ Image (ContainerCfg cfg) ≠ "") ↔ b = false).
  { intros b <-. destruct (IsPresent (Platforms cfg) GOOS); cbn.
    - split; auto.
    - destruct (String.eqb_spec (Image (ContainerCfg cfg)) ""); split; try done.
      + intros [|]; done.
      + auto. }
  destruct (negb (IsPresent (Platforms cfg) GOOS)
            && String.eqb (Image (ContainerCfg cfg)) "") eqn:Hplat;
    specialize (Hcheck _ eq_refl).
  - (* the platform check fails *)
    unfold_monad. split.
    + destruct (EnableQA cfg); cbn;
        [destruct (StartGRPCReceiver (world s)) as [[addr [err|]] w1]; cbn|];
        congruence.
    + intros (_ & Hok & _). apply Hcheck in Hok. done.
  - unfold_monad.
    destruct (EnableQA cfg); cbn.
    + destruct (StartGRPCReceiver (world s)) as [[addr [err|]] w1]; cbn;
        destruct (NewEnvironment (EnvInfoOf e) addr (ContainerCfg cfg) w1)
          as [[newenv [err'|]] w2]; cbn;
        (split; [intros [= <- <-] | intros (_ & _ & Hnone & -> & _ & ->)]);
        rewrite <- ?app_assoc, ?app_nil_r; try done;
        repeat split; try done; by apply Hcheck.
    + destruct (NewEnvironment (EnvInfoOf e) None (ContainerCfg cfg) (world s))
        as [[newenv [err'|]] w2]; cbn;
        (split; [intros [= <- <-] | intros (_ & _ & Hnone & -> & _ & ->)]);
        rewrite ?app_nil_r; try done;
        repeat split; try done; try (by apply Hcheck); by destruct s.
Qed.

(** X10. When the configuration loads but the platform is not listed and
    there is no image, the error [Init] returns names the host's operating
    system and the transformer; the environment argument is not looked at;
    and if QA is asked for, the receiver has been started before the check
    and is left as it is. *)
Theorem Init_platform_error
    (t : Executable) (tc : Transformer) (env : option Environment) (s : State)
    (cfg : ExecutableYamlConfig) :
  GetObjFromInterface (SpecConfig tc) zeroExecutableYamlConfig = (cfg, None) →
  IsPresent (Platforms cfg) GOOS = false →
  Image (ContainerCfg cfg) = "" →
  let q := if EnableQA cfg then StartGRPCReceiver (world s)
           else ((None, None), world s) in
  Init t tc env s
  = (Returned
       (mkExecutable tc (Env t) (Some cfg),
        Some (ErrorString ("platform " +:+ GOOS +:+
                           " not supported by transformer " +:+ Name tc))),
     mkState q.2
       (trace s ++
        match q.1.2 with
        | Some _ =>
            [ Log ErrorLevel "Unable to start QA RPC Receiver engine : %s";
              Log InfoLevel "Starting transformer that requires QA without QA." ]
        | None => []
        end)).
Proof.
  intros Hload Hplatform Himage q. subst q. unfold Init.
  rewrite Hload. cbn [fst snd]. rewrite Hplatform, Himage. unfold_monad.
  destruct (EnableQA cfg); cbn.
  - destruct (StartGRPCReceiver (world s)) as [[addr [err|]] w1]; cbn.
    + by rewrite <- app_assoc.
    + by rewrite app_nil_r.
  - rewrite app_nil_r. by destruct s.
Qed.

(** X11. [Init] does not undo what it has done when it fails: whatever it
    returns, the receiver's [Config] is the new one and its [ExecConfig] is
    what the loader left.  If it was the loader that failed, [Init] returns
    the loader's error, keeps the receiver's [Env] and leaves the world
    alone: no receiver is started and no environment is created. *)
Theorem Init_replaces_config
    (t : Executable) (tc : Transformer) (env : option Environment) (s s' : State)
    (t' : Executable) (err : option error) :
  let d := GetObjFromInterface (SpecConfig tc) zeroExecutableYamlConfig in
  Init t tc env s = (Returned (t', err), s') →
  Config t' = tc ∧
  ExecConfig t' = Some d.1 ∧
  (d.2 ≠ None → err = d.2 ∧ Env t' = Env t ∧ world s' = world s).
Proof.
  intros d. subst d. unfold Init.
  destruct (GetObjFromInterface (SpecConfig tc) zeroExecutableYamlConfig)
    as [cfg [e|]]; cbn [fst snd].
  { unfold_monad. cbn. by intros [= <- <- <-]. }
  unfold_monad.
  destruct (EnableQA cfg); cbn;
    [destruct (StartGRPCReceiver (world s)) as [[addr [e1|]] w1]; cbn|];
    (destruct (negb (IsPresent (Platforms cfg) GOOS)
               && String.eqb (Image (ContainerCfg cfg)) "");
       [by intros [= <- <- <-]|];
     destruct env as [e0|]; [|done]; cbn;
     match goal with
     | |- context [NewEnvironment ?i ?a ?c ?w] =>
         destruct (NewEnvironment i a c w) as [[newenv [e2|]] w2]
     end; cbn; by intros [= <- <- <-]).
Qed.

End init_behaviour.

(** * More of package [container] *)

Section container_behaviour.
Context `{Collaborators}.
Import container.

Lemma calls_app (name : string) (tr : list Event) (ev : Event) :
  calls name (tr ++ [ev])
  = (calls name tr + if decide (ev = Call name) then 1 else 0)%nat.
Proof.
  unfold calls. rewrite list.filter_app, length_app. f_equal.
  rewrite filter_cons, filter_nil.
  by destruct (decide (ev = Call name)).
Qed.

Lemma run_app (rs1 rs2 : list Request) (s : State) :
  run (rs1 ++ rs2) s
  = match run rs1 s with
    | (Returned xs, s1) =>
        match run rs2 s1 with
        | (Returned ys, s2) => (Returned (xs ++ ys), s2)
        | (Panicked msg, s2) => (Panicked msg, s2)
        | (Exited code, s2) => (Exited code, s2)
        end
    | (Panicked msg, s1) => (Panicked msg, s1)
    | (Exited code, s1) => (Exited code, s1)
    end.
Proof.
  revert s. induction rs1 as [|r rs1 IH]; intros s; cbn [app run].
  - unfold mret, M_ret. by destruct (run rs2 s) as [[ys|msg|code] s2].
  - unfold mbind, M_bind, mret, M_ret.
    destruct (serve r s) as [[x|msg|code] s1]; [|done|done].
    rewrite IH.
    destruct (run rs1 s1) as [[xs|msg|code] s2]; [|done|done].
    by destruct (run rs2 s2) as [[ys|msg|code] s3].
Qed.

Lemma run_IsDisabled (n : nat) (s : State) :
  run (replicate n ReqIsDisabled) s
  = (Returned (replicate n (RepDisabled (disabled s))), s).
Proof.
  induction n as [|n IH]; [done|].
  cbn [replicate run]. unfold mbind, M_bind at 1. cbn [serve].
  unfold fmap, M_fmap, IsDisabled. unfold_state. cbn.
  unfold mbind, M_bind. by rewrite IH.
Qed.

(** The first call of [GetContainerEngine], from any state in which the
    engine has not been looked for. *)
Lemma GetContainerEngine_first (s : State) :
  inited s = false →
  GetContainerEngine s
  = let a := FetchBoolAnswer (world s) in
    let asked := trace s ++ [ Call "qaengine.FetchBoolAnswer" ] in
    if a.1 then
      let d := newDockerEngine a.2 in
      let looked := asked ++ [ Call "newDockerEngine" ] in
      match d.1 with
      | (Some e, None) =>
          (Returned (Some e), mkState true false (Some e) d.2 looked)
      | (e, _) =>
          (Exited 1%Z,
           mkState false false e d.2
             (looked ++
              [ Log FatalLevel
                  "failed to initialize the container engine. Error: %q" ]))
      end
    else
      (Returned (workingEngine s),
       mkState true true (workingEngine s) a.2 asked).
Proof.
  intros Hinit. unfold GetContainerEngine, initContainerEngine.
  unfold_state. unfold_state. rewrite Hinit. cbn.
  destruct (FetchBoolAnswer (world s)) as [[|] w1]; cbn; [|done].
  destruct (newDockerEngine w1) as [[[e|] [err|]] w2]; cbn;
    by rewrite ?Hinit, <- ?app_assoc.
Qed.

Lemma cached_engine (s : State) (rs : list Request) (e : option ContainerEngine) :
  RepEngine e ∈ map (cached s) rs → e = workingEngine s.
Proof.
  induction rs as [|r rs IH]; cbn [map]; [by intros ?%elem_of_nil|].
  intros [Hr|]%elem_of_cons; [|auto]. destruct r; [|done]. by injection Hr.
Qed.

(** X12. [IsDisabled] only reads: it never asks the operator and never
    looks for an engine.  So before the first call of [GetContainerEngine] it
    answers false even when the operator is going to decline, and true only
    after that call. *)
Theorem IsDisabled_before_first_call (w : World) (n : nat) :
  (FetchBoolAnswer w).1 = false →
  run (replicate n ReqIsDisabled ++ [ ReqGetContainerEngine; ReqIsDisabled ])
      (start w)
  = (Returned (replicate n (RepDisabled false) ++
               [ RepEngine None; RepDisabled true ]),
     mkState true true None (FetchBoolAnswer w).2
       [ Call "qaengine.FetchBoolAnswer" ]).
Proof.
  intros Hdecline. rewrite run_app, run_IsDisabled.
  cbn [run]. unfold mbind, M_bind at 1. cbn [serve].
  unfold fmap, M_fmap, mbind, M_bind at 1.
  rewrite GetContainerEngine_first by done. cbn zeta.
  cbn [start world trace workingEngine]. rewrite Hdecline.
  unfold mret, M_ret. cbn.
  by destruct (FetchBoolAnswer w).
Qed.

(** X13. However a process mixes its calls of [GetContainerEngine] and
    [IsDisabled], as long as they return: the operator is asked at most once
    and docker is tried at most once, and not at all unless the operator was
    asked; every call of [GetContainerEngine] has returned the engine the
    package holds at the end; and once that function has been called, the
    engine is nil exactly when the package is disabled. *)
Theorem container_requests_invariant
    (w : World) (rs : list Request) (replies : list Reply) (s' : State) :
  run rs (start w) = (Returned replies, s') →
  (calls "qaengine.FetchBoolAnswer" (trace s') ≤ 1)%nat ∧
  (calls "newDockerEngine" (trace s')
   ≤ calls "qaengine.FetchBoolAnswer" (trace s'))%nat ∧
  (∀ e, RepEngine e ∈ replies → e = workingEngine s') ∧
  (ReqGetContainerEngine ∈ rs →
   inited s' = true ∧ (workingEngine s' = None ↔ disabled s' = true)).
Proof.
  (* what holds of a state before and after the engine has been looked for *)
  set (Inv := λ s : State,
    if inited s then
      calls "qaengine.FetchBoolAnswer" (trace s) = 1%nat ∧
      (calls "newDockerEngine" (trace s) ≤ 1)%nat ∧
      (workingEngine s = None ↔ disabled s = true)
    else
      calls "qaengine.FetchBoolAnswer" (trace s) = 0%nat ∧
      calls "newDockerEngine" (trace s) = 0%nat ∧
      workingEngine s = None).
  assert (Hgen : ∀ rs s replies s',
    Inv s → run rs s = (Returned replies, s') →
    Inv s' ∧
    (∀ e, RepEngine e ∈ replies → e = workingEngine s') ∧
    (ReqGetContainerEngine ∈ rs → inited s' = true) ∧
    (inited s = true → s' = s)).
  { clear rs replies s'. intros rs.
    induction rs as [|r rs IH]; intros s replies s' HInv.
    - intros [= <- <-]. split; [done|]. split; [by intros e ?%elem_of_nil|].
      split; [by intros ?%elem_of_nil|done].
    - destruct (inited s) eqn:Hinit.
      + rewrite run_inited by done. intros [= <- <-].
        split; [done|]. split; [|done].
        intros e. apply (cached_engine s (r :: rs)).
      + cbn [run]. unfold mbind, M_bind at 1.
        destruct r; cbn [serve].
        * unfold fmap, M_fmap, mbind, M_bind at 1.
          rewrite GetContainerEngine_first by done. cbn zeta.
          unfold Inv in HInv. rewrite Hinit in HInv.
          destruct HInv as (Hasked & Hlooked & Hnil).
          destruct (FetchBoolAnswer (world s)) as [[|] w1]; cbn [fst snd].
          -- destruct (newDockerEngine w1) as [[[e|] [err|]] w2];
               cbn [fst snd]; try done.
             unfold mret, M_ret. unfold mbind, M_bind at 1.
             rewrite run_inited by done. intros [= <- <-].
             split; [|split; [|done]].
             ++ unfold Inv. cbn [inited trace workingEngine disabled].
                rewrite !calls_app. repeat case_decide; try congruence.
                split; [lia|]. split; [lia|]. done.
             ++ intros e' [[= ->]|Hin]%elem_of_cons; [done|].
                by apply cached_engine in Hin.
          -- unfold mret, M_ret. unfold mbind, M_bind at 1.
             rewrite run_inited by done. intros [= <- <-].
             split; [|split; [|done]].
             ++ unfold Inv. cbn [inited trace workingEngine disabled].
                rewrite !calls_app. repeat case_decide; try congruence.
                split; [lia|]. split; [lia|]. done.
             ++ intros e' [[= ->]|Hin]%elem_of_cons; [done|].
                by apply cached_engine in Hin.
        * unfold fmap, M_fmap, IsDisabled. unfold_state. cbn.
          unfold mbind, M_bind.
          destruct (run rs s) as [[xs|msg|code] s1] eqn:Hrun; [|done|done].
          intros [= <- <-].
          destruct (IH s xs s1 HInv Hrun) as (HInv' & Hrep & Hcalled & _).
          split; [done|]. split; [|split; [|done]].
          -- intros e [|]%elem_of_cons; [done|auto].
          -- intros [|]%elem_of_cons; [done|auto]. }
  intros Hrun.
  destruct (Hgen rs (start w) replies s') as (HInv & Hrep & Hcalled & _);
    [by unfold Inv|done|].
  unfold Inv in HInv.
  destruct (inited s') eqn:Hinit.
  - destruct HInv as (-> & Hlooked & Hnil).
    split; [lia|]. split; [lia|]. split; [done|]. done.
  - destruct HInv as (-> & -> & Hnil).
    split; [lia|]. split; [lia|]. split; [done|].
    intros Hin. by specialize (Hcalled Hin).
Qed.

(** X14. [initContainerEngine] always returns, after one try of docker,
    with the package's engine set to whatever docker gave, error or not; the
    error it returns is nil exactly when docker gave no error and the engine
    is not nil.  It changes neither [inited] nor [disabled]. *)
Theorem initContainerEngine_contract (s : State) :
  let d := newDockerEngine (world s) in
  ∃ err s',
    initContainerEngine s = (Returned err, s') ∧
    workingEngine s' = d.1.1 ∧
    (err = None ↔ d.1.2 = None ∧ workingEngine s' ≠ None) ∧
    inited s' = inited s ∧
    disabled s' = disabled s ∧
    world s' = d.2 ∧
    trace s' = trace s ++ [ Call "newDockerEngine" ].
Proof.
  intros d. subst d. unfold initContainerEngine. unfold_state. cbn.
  destruct (newDockerEngine (world s)) as [[[e|] [err|]] w1]; cbn;
    do 2 eexists; (split; [reflexivity|]); cbn; repeat split; try done;
    by intros [? ?].
Qed.

End container_behaviour.


(** * More of [Transform] with a transform command *)

Section command_behaviour.
Context `{Collaborators}.
Import external.

Lemma primaryPath_first (a : Artifact) (s : State) :
  serviceDirs a ≠ Some [] →
  primaryPath a s = (Returned (hd "" (elems (serviceDirs a))), s).
Proof.
  intros Hsafe. unfold primaryPath, index0.
  destruct (Paths a) eqn:Hpaths.
  - by destruct (serviceDirs a) as [[|p ps]|].
  - unfold serviceDirs, index_map. by rewrite Hpaths.
Qed.

(** X15. With a transform command, the body of the loop of [Transform]
    returns for every artifact whose list of service directories is not an
    empty list that is not nil; it runs the command exactly once, with one
    more argument: the first service directory, or [""] if the artifact has
    none; and it keeps what was gathered before. *)
Theorem transformArtifact_runs_command_once
    (t : Executable) (cfg : ExecutableYamlConfig) (cmd : list string)
    (env : Environment) (a : Artifact) (pm : list PathMapping)
    (ca : list Artifact) (s : State) :
  ExecConfig t = Some cfg →
  TransformCMD cfg = Some cmd →
  Env t = Some env →
  serviceDirs a ≠ Some [] →
  ∃ pm' ca' s',
    transformArtifact t (Some pm, Some ca) a s
    = (Returned (Some (pm ++ pm'), Some (ca ++ ca')), s') ∧
    world s'
    = (Exec env (cmd ++ [hd "" (elems (serviceDirs a))]) (world s)).2.
Proof.
  intros Hcfg Hcmd Henv Hsafe.
  destruct (Exec env (cmd ++ [hd "" (elems (serviceDirs a))]) (world s))
    as [r w'] eqn:Hexec.
  rewrite (transformArtifact_command t cfg cmd env a _ s _ r w')
    by auto using primaryPath_first.
  cbn [fst snd append elems default from_option id].
  destruct (exec_err r) as [err|].
  - exists [], []. rewrite !app_nil_r. eauto.
  - destruct (exitcode r =? 0)%Z.
    + cbn zeta. do 3 eexists. split; [reflexivity|done].
    + exists [], []. rewrite !app_nil_r. eauto.
Qed.

(** X16. A transform command that exits 0 and prints output that decodes
    without error contributes exactly what was decoded: [Transform] on that
    one artifact returns the decoded path mappings and created artifacts, a
    nil error, and logs one line. *)
Theorem Transform_success
    (t : Executable) (cfg : ExecutableYamlConfig) (cmd : list string)
    (env : Environment) (a : Artifact) (seen : slice Artifact) (s : State)
    (r : ExecResult) (w' : World) (out : TransformOutput) :
  ExecConfig t = Some cfg →
  TransformCMD cfg = Some cmd →
  Env t = Some env →
  serviceDirs a ≠ Some [] →
  Exec env (cmd ++ [hd "" (elems (serviceDirs a))]) (world s) = (r, w') →
  exec_err r = None →
  exitcode r = 0%Z →
  Unmarshal decodeTransformOutput (TrimSpace (stdout r)) zeroTransformOutput
  = (out, None) →
  Transform t (Some [a]) seen s
  = (Returned (Some (elems (PathMappings out)),
               Some (elems (CreatedArtifacts out)), None),
     mkState w'
       (trace s ++
        [ Log DebugLevel "%s Transform succeeded in %s : %s, %s, %d" ])).
Proof.
  intros Hcfg Hcmd Henv Hsafe Hexec Herr Hexit Hdec.
  unfold Transform. unfold mbind, M_bind.
  cbn [elems default from_option id forM]. unfold mbind, M_bind.
  rewrite (transformArtifact_command t cfg cmd env a _ s _ r w')
    by auto using primaryPath_first.
  rewrite Herr, Hexit, Hdec. cbn. by rewrite ?app_nil_r.
Qed.

(** X17. An artifact whose command cannot be executed, whatever the error,
    or exits with a code other than 0 is skipped: what was gathered so far
    is returned as it is, and one line is logged (at debug level for an
    environment that is not active and for a bad exit code, at error level
    for any other error). *)
Theorem transformArtifact_skips_failure
    (t : Executable) (cfg : ExecutableYamlConfig) (cmd : list string)
    (env : Environment) (a : Artifact)
    (acc : slice PathMapping * slice Artifact) (s : State)
    (r : ExecResult) (w' : World) :
  ExecConfig t = Some cfg →
  TransformCMD cfg = Some cmd →
  Env t = Some env →
  serviceDirs a ≠ Some [] →
  Exec env (cmd ++ [hd "" (elems (serviceDirs a))]) (world s) = (r, w') →
  exec_err r ≠ None ∨ exitcode r ≠ 0%Z →
  transformArtifact t acc a s
  = (Returned acc,
     mkState w'
       (trace s ++
        [ match exec_err r with
          | Some err =>
              if isEnvironmentNotActive err then Log DebugLevel "%s"
              else Log ErrorLevel "Transform failed %s : %s : %d : %s"
          | None =>
              Log DebugLevel "Transform did not succeed %s : %s : %d : %s"
          end ])).
Proof.
  intros Hcfg Hcmd Henv Hsafe Hexec Hbad.
  rewrite (transformArtifact_command t cfg cmd env a _ s _ r w')
    by auto using primaryPath_first.
  destruct (exec_err r) as [err|]; [done|].
  destruct Hbad as [|Hexit]; [done|].
  apply Z.eqb_neq in Hexit. by rewrite Hexit.
Qed.

End command_behaviour.

(** * The properties at work *)

Section scenarios.
Import scenario.
Import external.



(** C6 at work: of the two artifacts the detect command prints, the first
    gets the directory, the second stays. *)
Lemma DirectoryDetect_default_path_injection_witness :
  executeDetect plugin ["detect.sh"] "/src/app" (state detect_world)
  = (Returned (Some {[ "web" := Some [ without_paths; with_source_path ] ]}, None),
     mkState detect_world
       [ Log DebugLevel "%s Detect succeeded in %s : %s, %s, %d" ]) ∧
  ∃ services' ns' first second,
    (DirectoryDetect plugin "/src/app" (state detect_world)).1
    = Returned (Some services', None) ∧
    services' !! "web" = Some ns' ∧
    elems ns' !! 0%nat = Some first ∧
    serviceDirs first = Some ["/src/app"] ∧
    Configs first = Configs without_paths ∧
    elems ns' !! 1%nat = Some second ∧
    second = with_source_path.
Proof.
  assert (Hdetect :
    executeDetect plugin ["detect.sh"] "/src/app" (state detect_world)
    = (Returned (Some {[ "web" := Some [ without_paths; with_source_path ] ]}, None),
       mkState detect_world
         [ Log DebugLevel "%s Detect succeeded in %s : %s, %s, %d" ])).
  { vm_compute. reflexivity. }
  split; [exact Hdetect|].
  destruct (DirectoryDetect_default_path_injection plugin plugin_config
              ["detect.sh"] "/src/app" _ _ _ eq_refl eq_refl Hdetect)
    as (services' & Hrun & _ & Hall).
  destruct (Hall "web" (Some [ without_paths; with_source_path ]))
    as (ns' & Hweb & _ & _ & Hat); [vm_compute; reflexivity|].
  destruct (Hat 0%nat without_paths eq_refl) as (first & Hfirst & Hempty & _).
  destruct (Hat 1%nat with_source_path eq_refl) as (second & Hsecond & _ & Hkept).
  destruct (Hempty eq_refl) as (_ & Hdirs & Hconfigs).
  exists services', ns', first, second.
  rewrite Hrun. repeat split; try assumption.
  apply Hkept. vm_compute. discriminate.
Defined.

(** C3 at work: three artifacts, the second with a relative path, which
    cannot be made relative to the absolute source root. *)
Lemma Transform_template_fallback_witness :
  Forall (λ a, elems (serviceDirs a) ≠ [])
    [ artifact_at "/src/app"; artifact_at "app"; artifact_at "/src/db" ] ∧
  ∃ pathMappings,
    Transform templates_only
      (Some [ artifact_at "/src/app"; artifact_at "app"; artifact_at "/src/db" ])
      None (state quiet)
    = (Returned (Some pathMappings, Some [], None),
       mkState quiet
         [ Log ErrorLevel "Unable to convert source path %s to be relative : %s" ]) ∧
    pathMappings
    = [ mkPathMapping "template" "/plugins/demo/templates" "source/app" GNil;
        mkPathMapping "source" "" "source" GNil;
        mkPathMapping "template" "/plugins/demo/templates" "source/db" GNil;
        mkPathMapping "source" "" "source" GNil ] ∧
    length pathMappings = 4%nat.
Proof.
  assert (Hdirs : Forall (λ a, elems (serviceDirs a) ≠ [])
            [ artifact_at "/src/app"; artifact_at "app"; artifact_at "/src/db" ]).
  { repeat constructor; vm_compute; discriminate. }
  split; [exact Hdirs|].
  destruct (Transform_template_fallback templates_only templates_config "/src"
              (Some [ artifact_at "/src/app"; artifact_at "app";
                      artifact_at "/src/db" ])
              None (state quiet) eq_refl eq_refl eq_refl Hdirs)
    as (pathMappings & Hrun & Hmaps & Hlen & _).
  exists pathMappings. split; [exact Hrun|].
  split; [rewrite Hmaps; vm_compute; reflexivity|].
  rewrite Hlen. vm_compute. reflexivity.
Defined.

(** C7 at work: a plugin for windows only, without an image, on linux. *)
Lemma Init_unsupported_platform_witness :
  IsPresent (Platforms (qa_config ["windows"])) GOOS = false ∧
  Image (ContainerCfg (qa_config ["windows"])) = "" ∧
  ∃ err s',
    Init uninitialized (qa_plugin ["windows"]) (Some "/src") (state quiet)
    = (Returned (mkExecutable (qa_plugin ["windows"]) None
                   (Some (qa_config ["windows"])),
                 Some err), s').
Proof.
  split; [reflexivity|]. split; [reflexivity|].
  exact (Init_unsupported_platform uninitialized (qa_plugin ["windows"])
           (Some "/src") (state quiet) eq_refl eq_refl).
Defined.

(** C9 as it was stated fails: with a transform command, an artifact whose
    list of service directories is there but empty passes the guard, and
    the index is out of range in this branch too. *)
Lemma transformArtifact_guard_passes_empty_list :
  TransformCMD plugin_config = Some ["transform.sh"] ∧
  Paths no_directory ≠ None ∧
  index_map None (Paths no_directory) ServiceDirPathType = Some [] ∧
  transformArtifact plugin (Some [], Some []) no_directory (state quiet)
  = (Panicked index_out_of_range, state quiet).
Proof.
  split; [reflexivity|]. split; [discriminate|].
  split; vm_compute; reflexivity.
Qed.

(** C9, as amended, at work: an artifact without paths stops [Transform]
    when there is no transform command, and is handed to the command with
    the path [""] when there is one; an artifact with an empty list of
    service directories stops the body of the loop then. *)
Lemma Transform_serviceDir_index_witness :
  (∃ s', Transform templates_only
           (Some [ artifact_at "/src/app"; zeroArtifact ]) None (state quiet)
         = (Panicked index_out_of_range, s')) ∧
  (∃ acc' s',
     transformArtifact plugin (Some [], Some []) zeroArtifact (state quiet)
     = (Returned acc', s')) ∧
  transformArtifact plugin (Some [], Some []) no_directory (state quiet)
  = (Panicked index_out_of_range, state quiet).
Proof.
  destruct (Transform_serviceDir_index templates_only templates_config "/src"
              eq_refl eq_refl) as [Hnone _].
  destruct (Hnone eq_refl) as (_ & _ & Hpanic & _).
  destruct (Transform_serviceDir_index plugin plugin_config "/src"
              eq_refl eq_refl) as [_ Hsome].
  destruct (Hsome ["transform.sh"] eq_refl) as [Hguarded Hempty].
  split; [|split].
  - apply Hpanic. apply Exists_cons_tl, Exists_cons_hd. reflexivity.
  - destruct (Hguarded zeroArtifact (Some [], Some []) (state quiet)
                (or_introl eq_refl)) as (acc' & s' & Hrun & _).
    eauto.
  - apply Hempty. vm_compute. reflexivity.
Defined.

(** C4 as it was stated fails: the detect command cannot be executed, the
    error is not the one of an environment that is not active, and
    [DirectoryDetect] returns it. *)
Lemma DirectoryDetect_exec_error_escapes :
  Exec "/src" ["detect.sh"; "/src/app"] failing_world
  = (fails permission_denied, failing_world) ∧
  isEnvironmentNotActive permission_denied = false ∧
  DirectoryDetect plugin "/src/app" (state failing_world)
  = (Returned (None, Some permission_denied),
     mkState failing_world [ Log ErrorLevel "Detect failed %s : %s : %d : %s" ]) ∧
  ¬ ∃ services s',
      DirectoryDetect plugin "/src/app" (state failing_world)
      = (Returned (services, None), s').
Proof.
  assert (Hrun :
    DirectoryDetect plugin "/src/app" (state failing_world)
    = (Returned (None, Some permission_denied),
       mkState failing_world [ Log ErrorLevel "Detect failed %s : %s : %d : %s" ])).
  { vm_compute. reflexivity. }
  split; [vm_compute; reflexivity|]. split; [reflexivity|]. split; [exact Hrun|].
  intros (services & s' & Hnone). rewrite Hrun in Hnone. discriminate.
Qed.

(** C4, as amended, at work on the same command. *)
Lemma DirectoryDetect_failure_witness :
  Exec "/src" (["detect.sh"] ++ ["/src/app"]) failing_world
  = (fails permission_denied, failing_world) ∧
  DirectoryDetect plugin "/src/app" (state failing_world)
  = (Returned (None, Some permission_denied),
     mkState failing_world [ Log ErrorLevel "Detect failed %s : %s : %d : %s" ]).
Proof.
  assert (Hexec : Exec "/src" (["detect.sh"] ++ ["/src/app"]) failing_world
                  = (fails permission_denied, failing_world))
    by (vm_compute; reflexivity).
  split; [exact Hexec|].
  exact (proj1 (DirectoryDetect_failure plugin plugin_config ["detect.sh"] "/src"
                  "/src/app" (state failing_world) (fails permission_denied)
                  failing_world eq_refl eq_refl eq_refl Hexec)
               permission_denied eq_refl).
Defined.

(** C10 at work: a plugin for linux that asks for QA is initialised although
    the receiver cannot listen. *)
Lemma Init_QA_receiver_failure_witness :
  EnableQA (qa_config ["linux"]) = true ∧
  StartGRPCReceiver no_receiver = ((None, Some address_in_use), no_receiver) ∧
  Init uninitialized (qa_plugin ["linux"]) (Some "/src") (state no_receiver)
  = (Returned
       (mkExecutable (qa_plugin ["linux"]) (Some "/run") (Some (qa_config ["linux"])),
        None),
     mkState no_receiver
       [ Log ErrorLevel "Unable to start QA RPC Receiver engine : %s";
         Log InfoLevel "Starting transformer that requires QA without QA." ]).
Proof.
  split; [reflexivity|]. split; [reflexivity|].
  exact (proj2 (Init_QA_receiver_failure uninitialized (qa_plugin ["linux"]) "/src"
                  (state no_receiver) (qa_config ["linux"]) address_in_use
                  no_receiver eq_refl eq_refl eq_refl)
               (or_introl eq_refl) eq_refl).
Defined.

(** C2 on the code: an artifact that the plugin's own detect command can
    produce, with a list of service directories that is there but empty,
    passes the guard of the transform-command branch and [Transform] panics
    at the index, before the command is run; with no transform command an
    artifact without paths does the same.  [Transform] does not return. *)
Theorem Transform_panics_before_command :
  DirectoryDetect plugin "/src/app" (state empty_dirs_world)
  = (Returned (Some {[ "svc" := Some [ no_directory ] ]}, None),
     mkState empty_dirs_world
       [ Log DebugLevel "%s Detect succeeded in %s : %s, %s, %d" ]) ∧
  Transform plugin (Some [ no_directory ]) None (state quiet)
  = (Panicked index_out_of_range, state quiet) ∧
  Transform templates_only (Some [ zeroArtifact ]) None (state quiet)
  = (Panicked index_out_of_range, state quiet).
Proof. repeat split; vm_compute; reflexivity. Qed.

(** C5 on the code: the transform command exits 0, its output does not
    decode as a [TransformOutput] (the second path mapping is a number), and
    [Transform] still appends what the decoder left in the output: the first
    path mapping and a zero one. *)
Theorem Transform_appends_partial_output :
  let out := dq "{'pathMappings':[{'type':'source','srcPath':'','destPath':'/out'},7]}" in
  Exec "/src" ["transform.sh"; "/src/app"] bad_output_world
  = (ok out, bad_output_world) ∧
  Unmarshal decodeTransformOutput (TrimSpace out) zeroTransformOutput
  = (mkTransformOutput
       (Some [ mkPathMapping "source" "" "/out" GNil; zeroPathMapping ]) None,
     Some (UnmarshalTypeError "number" "transformer.PathMapping")) ∧
  Transform plugin (Some [ artifact_at "/src/app" ]) None (state bad_output_world)
  = (Returned
       (Some [ mkPathMapping "source" "" "/out" GNil; zeroPathMapping ],
        Some [], None),
     mkState bad_output_world
       [ Log DebugLevel "%s Transform succeeded in %s : %s, %s, %d";
         Log ErrorLevel "Error in unmarshalling json %s: %s." ]).
Proof. repeat split; vm_compute; reflexivity. Qed.

End scenarios.

Section container_scenarios.
Import scenario.
Import container.

(** C8 at work: the operator agrees, docker answers, and three more
    requests follow the first call. *)
Lemma GetContainerEngine_once_witness :
  run [ ReqGetContainerEngine; ReqGetContainerEngine; ReqIsDisabled;
        ReqGetContainerEngine ] (start docker_world)
  = (Returned [ RepEngine (Some 1%nat); RepEngine (Some 1%nat);
                RepDisabled false; RepEngine (Some 1%nat) ],
     mkState true false (Some 1%nat) docker_world
       [ Call "qaengine.FetchBoolAnswer"; Call "newDockerEngine" ]).
Proof.
  exact (proj1 (GetContainerEngine_once docker_world
                  [ ReqGetContainerEngine; ReqIsDisabled; ReqGetContainerEngine ])).
Defined.

End container_scenarios.

(** * More properties at work *)

Section more_scenarios.
Import scenario.
Import external.

(** X1 at work. *)
Lemma DirectoryDetect_runs_command_once_witness :
  ∃ services err s',
    DirectoryDetect plugin "/src/app" (state blob_world)
    = (Returned (services, err), s') ∧
    world s' = blob_world.
Proof.
  destruct (DirectoryDetect_runs_command_once plugin plugin_config "/src"
              "/src/app" (state blob_world) eq_refl eq_refl)
    as (services & err & s' & Hrun & _ & Hworld).
  exists services, err, s'. split; [exact Hrun|exact Hworld].
Defined.

(** X2 at work: the detect command prints a line feed. *)
Lemma DirectoryDetect_blank_output_witness :
  TrimSpace (String (Ascii.ascii_of_nat 10) "") = "" ∧
  DirectoryDetect plugin "/src/app" (state blank_world)
  = (Returned
       (Some {[ "" := Some [ mkArtifact
                               (Some {[ "serviceDir" := Some ["/src/app"] ]})
                               (Some {[ "TemplateConfig" := GNilMap ]}) ] ]},
        None),
     mkState blank_world
       [ Log DebugLevel "%s Detect succeeded in %s : %s, %s, %d";
         Log DebugLevel
           "Error in unmarshalling output json to full detect output %s: %s." ]).
Proof.
  split; [reflexivity|].
  exact (DirectoryDetect_blank_output plugin plugin_config ["detect.sh"] "/src"
           "/src/app" (state blank_world) (ok (String (Ascii.ascii_of_nat 10) ""))
           blank_world eq_refl eq_refl eq_refl eq_refl eq_refl eq_refl eq_refl
           eq_refl).
Defined.

(** X3 at work: the detect command prints a word. *)
Lemma DirectoryDetect_not_an_object_witness :
  scan (TrimSpace "found nothing") = None ∧
  DirectoryDetect plugin "/src/app" (state chatty_world)
  = (Returned
       (Some {[ "" := Some [ mkArtifact
                               (Some {[ "serviceDir" := Some ["/src/app"] ]})
                               (Some {[ "TemplateConfig" := GMap ∅ ]}) ] ]},
        None),
     mkState chatty_world
       [ Log DebugLevel "%s Detect succeeded in %s : %s, %s, %d";
         Log DebugLevel
           "Error in unmarshalling output json to full detect output %s: %s.";
         Log DebugLevel "Error in unmarshalling json %s: %s." ]).
Proof.
  split; [reflexivity|].
  assert (Hne : TrimSpace (stdout (ok "found nothing")) ≠ "")
    by (vm_compute; discriminate).
  exact (DirectoryDetect_not_an_object plugin plugin_config ["detect.sh"] "/src"
           "/src/app" (state chatty_world) (ok "found nothing") chatty_world
           eq_refl eq_refl eq_refl eq_refl eq_refl eq_refl Hne I).
Defined.

(** X4 at work: the artifact that came without paths has one now. *)
Lemma DirectoryDetect_result_has_paths_witness :
  ∃ services s',
    DirectoryDetect plugin "/src/app" (state detect_world)
    = (Returned (Some services, None), s') ∧
    ∀ ns nst, services !! "web" = Some ns → nst ∈ elems ns →
              maplen (Paths nst) ≠ 0%nat.
Proof.
  assert (Hrun :
    DirectoryDetect plugin "/src/app" (state detect_world)
    = (Returned
         (Some {[ "web" := Some [ mkArtifact
                                    (Some {[ "serviceDir" := Some ["/src/app"] ]})
                                    (Some {[ "port" := GNum "8080" ]});
                                  with_source_path ] ]},
          None),
       mkState detect_world
         [ Log DebugLevel "%s Detect succeeded in %s : %s, %s, %d" ])).
  { vm_compute. reflexivity. }
  do 2 eexists. split; [exact Hrun|].
  intros ns nst.
  exact (DirectoryDetect_result_has_paths plugin "/src/app" _ _ _ None "web" ns nst
           Hrun).
Defined.

(** X5 at work: the service the command prints has a path mapping (with an
    empty list in it) and comes back as it was printed. *)
Lemma DirectoryDetect_keeps_explicit_paths_witness :
  Unmarshal decodeServices
    (TrimSpace (dq "{'svc':[{'paths':{'serviceDir':[]}}]}")) None
  = (Some {[ "svc" := Some [ no_directory ] ]}, None) ∧
  DirectoryDetect plugin "/src/app" (state empty_dirs_world)
  = (Returned (Some {[ "svc" := Some [ no_directory ] ]}, None),
     mkState empty_dirs_world
       [ Log DebugLevel "%s Detect succeeded in %s : %s, %s, %d" ]).
Proof.
  assert (Hdec :
    Unmarshal decodeServices
      (TrimSpace (stdout (ok (dq "{'svc':[{'paths':{'serviceDir':[]}}]}")))) None
    = (Some {[ "svc" := Some [ no_directory ] ]}, None))
    by (vm_compute; reflexivity).
  split; [exact Hdec|].
  refine (DirectoryDetect_keeps_explicit_paths plugin plugin_config ["detect.sh"]
            "/src" "/src/app" (state empty_dirs_world)
            (ok (dq "{'svc':[{'paths':{'serviceDir':[]}}]}")) empty_dirs_world
            (Some {[ "svc" := Some [ no_directory ] ]})
            eq_refl eq_refl eq_refl eq_refl eq_refl eq_refl Hdec _).
  intros m sn ns nst [= <-] Hsn Hin.
  destruct (decide (sn = "svc")) as [->|Hne].
  - rewrite lookup_singleton_eq in Hsn. injection Hsn as <-.
    apply list_elem_of_singleton in Hin. subst nst. vm_compute. discriminate.
  - by rewrite lookup_singleton_ne in Hsn.
Defined.

(** X7 at work: no command is found in the quiet world. *)
Lemma Transform_failing_command_witness :
  ∃ s',
    Transform plugin (Some [ artifact_at "/src/app"; zeroArtifact ]) None
      (state quiet)
    = (Returned (Some [], Some [], None), s') ∧
    world s' = quiet ∧
    length (trace s') = 2%nat.
Proof.
  refine (Transform_failing_command plugin plugin_config ["transform.sh"] "/src"
            (λ w, w = quiet) [ artifact_at "/src/app"; zeroArtifact ] None
            (state quiet) eq_refl eq_refl eq_refl _ eq_refl _).
  - intros w path ->. split; [reflexivity|]. right. vm_compute. discriminate.
  - repeat constructor; vm_compute; discriminate.
Defined.


(** X9 at work: the demo plugin is initialised in the quiet world. *)
Lemma Init_succeeds_iff_witness :
  Init uninitialized plugin_transformer (Some "/src") (state quiet)
  = (Returned (mkExecutable plugin_transformer (Some "/src") (Some plugin_config),
               None),
     state quiet).
Proof.
  apply (Init_succeeds_iff uninitialized plugin_transformer "/src" (state quiet)).
  repeat split; try reflexivity. left. reflexivity.
Defined.

(** X10 at work: the receiver is asked to start, fails, and the platform
    check fails after it. *)
Lemma Init_platform_error_witness :
  Init uninitialized (qa_plugin ["windows"]) None (state no_receiver)
  = (Returned
       (mkExecutable (qa_plugin ["windows"]) None (Some (qa_config ["windows"])),
        Some (ErrorString "platform linux not supported by transformer qa")),
     mkState no_receiver
       [ Log ErrorLevel "Unable to start QA RPC Receiver engine : %s";
         Log InfoLevel "Starting transformer that requires QA without QA." ]).
Proof.
  exact (Init_platform_error uninitialized (qa_plugin ["windows"]) None
           (state no_receiver) (qa_config ["windows"]) eq_refl eq_refl eq_refl).
Defined.

(** X11 at work on the same call. *)
Lemma Init_replaces_config_witness :
  ∃ t' err s',
    Init uninitialized (qa_plugin ["windows"]) None (state no_receiver)
    = (Returned (t', err), s') ∧
    Config t' = qa_plugin ["windows"] ∧
    ExecConfig t' = Some (qa_config ["windows"]).
Proof.
  assert (Hrun :
    Init uninitialized (qa_plugin ["windows"]) None (state no_receiver)
    = (Returned
         (mkExecutable (qa_plugin ["windows"]) None (Some (qa_config ["windows"])),
          Some (ErrorString "platform linux not supported by transformer qa")),
       mkState no_receiver
         [ Log ErrorLevel "Unable to start QA RPC Receiver engine : %s";
           Log InfoLevel "Starting transformer that requires QA without QA." ]))
    by (vm_compute; reflexivity).
  do 3 eexists. split; [exact Hrun|].
  destruct (Init_replaces_config uninitialized (qa_plugin ["windows"]) None
              _ _ _ _ Hrun) as (Hconfig & Hexec & _).
  split; [exact Hconfig|exact Hexec].
Defined.

(** X15 at work: the artifact has no paths, the command is run with [""]
    and is not found. *)
Lemma transformArtifact_runs_command_once_witness :
  ∃ pm' ca' s',
    transformArtifact plugin (Some [], Some []) zeroArtifact (state quiet)
    = (Returned (Some ([] ++ pm'), Some ([] ++ ca')), s') ∧
    world s' = quiet.
Proof.
  assert (Hsafe : serviceDirs zeroArtifact ≠ Some []) by (vm_compute; discriminate).
  exact (transformArtifact_runs_command_once plugin plugin_config ["transform.sh"]
           "/src" zeroArtifact [] [] (state quiet) eq_refl eq_refl eq_refl Hsafe).
Defined.

(** X16 at work: the scenario of the specification, one source mapping to
    [/out] and no artifact. *)
Lemma Transform_success_witness :
  @Transform types (reading [ (good_text, good_output) ]) plugin
    (Some [ artifact_at "/src/app" ]) None (state good_world)
  = (Returned (Some [ mkPathMapping "source" "" "/out" GNil ], Some [], None),
     mkState good_world
       [ Log DebugLevel "%s Transform succeeded in %s : %s, %s, %d" ]).
Proof.
  assert (Hsafe : @serviceDirs types (reading [ (good_text, good_output) ])
                    (artifact_at "/src/app") ≠ Some [])
    by (vm_compute; discriminate).
  assert (Hdec :
    @Unmarshal types (reading [ (good_text, good_output) ]) _
      decodeTransformOutput
      (@TrimSpace types (reading [ (good_text, good_output) ]) (stdout (ok good_text)))
      zeroTransformOutput
    = (mkTransformOutput (Some [ mkPathMapping "source" "" "/out" GNil ]) (Some []),
       None))
    by (vm_compute; reflexivity).
  exact (@Transform_success types (reading [ (good_text, good_output) ]) plugin
           plugin_config ["transform.sh"] "/src" (artifact_at "/src/app") None
           (state good_world) (ok good_text) good_world _
           eq_refl eq_refl eq_refl Hsafe eq_refl eq_refl eq_refl Hdec).
Defined.

(** X17 at work: the command is not found (exit code 127). *)
Lemma transformArtifact_skips_failure_witness :
  transformArtifact plugin (Some [], Some []) (artifact_at "/src/app") (state quiet)
  = (Returned (Some [], Some []),
     mkState quiet
       [ Log DebugLevel "Transform did not succeed %s : %s : %d : %s" ]).
Proof.
  assert (Hsafe : serviceDirs (artifact_at "/src/app") ≠ Some [])
    by (vm_compute; discriminate).
  assert (Hbad : exec_err (exits 127) ≠ None ∨ exitcode (exits 127) ≠ 0%Z)
    by (right; vm_compute; discriminate).
  exact (transformArtifact_skips_failure plugin plugin_config ["transform.sh"]
           "/src" (artifact_at "/src/app") (Some [], Some []) (state quiet)
           (exits 127) quiet eq_refl eq_refl eq_refl Hsafe eq_refl Hbad).
Defined.

End more_scenarios.

Section more_container_scenarios.
Import scenario.
Import container.

(** X12 at work: the operator of the quiet world declines. *)
Lemma IsDisabled_before_first_call_witness :
  run [ ReqIsDisabled; ReqIsDisabled; ReqGetContainerEngine; ReqIsDisabled ]
      (start quiet)
  = (Returned [ RepDisabled false; RepDisabled false; RepEngine None;
                RepDisabled true ],
     mkState true true None quiet [ Call "qaengine.FetchBoolAnswer" ]).
Proof. exact (IsDisabled_before_first_call quiet 2 eq_refl). Defined.

(** X13 at work. *)
Lemma container_requests_invariant_witness :
  ∃ replies s',
    run [ ReqIsDisabled; ReqGetContainerEngine; ReqGetContainerEngine ]
        (start docker_world)
    = (Returned replies, s') ∧
    (calls "qaengine.FetchBoolAnswer" (trace s') ≤ 1)%nat ∧
    (∀ e, RepEngine e ∈ replies → e = workingEngine s').
Proof.
  assert (Hrun :
    run [ ReqIsDisabled; ReqGetContainerEngine; ReqGetContainerEngine ]
        (start docker_world)
    = (Returned [ RepDisabled false; RepEngine (Some 1%nat);
                  RepEngine (Some 1%nat) ],
       mkState true false (Some 1%nat) docker_world
         [ Call "qaengine.FetchBoolAnswer"; Call "newDockerEngine" ]))
    by (vm_compute; reflexivity).
  do 2 eexists. split; [exact Hrun|].
  destruct (@container_requests_invariant types collaborators docker_world _ _ _
              Hrun)
    as (Hasked & _ & Hengine & _).
  split; [exact Hasked|exact Hengine].
Defined.

End more_container_scenarios.
